(** * SFMC translation block: the save-to-de relay and the widget's form checks

    A shallow embedding of [save-to-de.js] (the serverless relay with its
    in-memory token cache) and of the parts of [customBlock.js] that collect
    and check the form ([collectFieldData], [sanitizeInput],
    [convertFieldsToDataRows], [saveToDataExtension]).

    Modelling boundary.
    - JavaScript numbers are the integers of [Z] plus [NaN]; this is exact for
      the safe-integer range of doubles, which covers epoch milliseconds,
      HTTP status codes and token lifetimes.  Fractions and infinities are
      not represented, and beyond that range the source rounds where [Z]
      does not: a statement that gives the value of an arithmetic result
      carries the hypothesis that operands and result are safe integers.
    - Turning an object or an array into a string or a number never throws
      here.  In the source it throws for an object with an own [toString]
      key (JSON can build one); a statement that depends on the coercion
      going through carries the hypothesis that the value is primitive.
    - Strings are [string]; the Unicode-aware builtins [String.toLowerCase],
      [String.trim] and the string-to-number coercion are parameters of the
      development, so every theorem holds for whatever the engine computes.
    - [JSON.stringify] is not unfolded: a request body is the value handed to
      it.  [console.log] and the [details] field of the 500 reply (which
      depends on [NODE_ENV]) are not modelled.
    - One invocation runs from start to end: interleaving of concurrent
      invocations at [await] points is outside the model. *)

From Stdlib Require Import ZArith List String Ascii Bool Lia DecimalString.
Import ListNotations.
Local Open Scope string_scope.
Local Open Scope Z_scope.
Set Warnings "-register-all".

(* ------------------------------------------------------------------ *)
(** ** JavaScript values *)

Inductive JsNum : Type :=
| Num (z : Z)
| NaN.

Inductive JsVal : Type :=
| VUndefined
| VNull
| VBool (b : bool)
| VNum (n : JsNum)
| VStr (s : string)
| VArr (items : list JsVal)
| VObj (props : list (string * JsVal)).

(** Errors that can be thrown while the relay runs. *)
Inductive JsError : Type :=
| Err (message : string)                 (* [new Error(message)] thrown by the code *)
| TypeErr (target : JsVal) (key : string) (* property read on [undefined] or [null] *)
| FetchErr (message : string)            (* [fetch] rejected: network failure *)
| SyntaxErr.                             (* [response.json()] on a body that is not JSON *)

Inductive Outcome (A : Type) : Type :=
| Returned (a : A)
| Thrown (e : JsError).
Arguments Returned {A} a.
Arguments Thrown {A} e.

Module Js.

Definition string_of_Z (z : Z) : string := NilZero.string_of_int (Z.to_int z).

Definition string_of_nat (n : nat) : string := NilZero.string_of_uint (Nat.to_uint n).

(** Sum, difference and product are those of [Z]: they are the source's
    whenever operands and result are safe integers. *)
Definition num_add (a b : JsNum) : JsNum :=
  match a, b with
  | Num x, Num y => Num (x + y)
  | _, _ => NaN
  end.

Definition num_sub (a b : JsNum) : JsNum :=
  match a, b with
  | Num x, Num y => Num (x - y)
  | _, _ => NaN
  end.

Definition num_mul (a b : JsNum) : JsNum :=
  match a, b with
  | Num x, Num y => Num (x * y)
  | _, _ => NaN
  end.

(** [a < b]: false as soon as one side is [NaN]. *)
Definition num_lt (a b : JsNum) : bool :=
  match a, b with
  | Num x, Num y => x <? y
  | _, _ => false
  end.

Definition string_of_num (n : JsNum) : string :=
  match n with
  | Num z => string_of_Z z
  | NaN => "NaN"
  end.

(** [String(v)], as a template literal applies it.  Total: the TypeError of
    the source for an object with an own [toString] key is not modelled. *)
Fixpoint toString (v : JsVal) : string :=
  match v with
  | VUndefined => "undefined"
  | VNull => "null"
  | VBool true => "true"
  | VBool false => "false"
  | VNum n => string_of_num n
  | VStr s => s
  | VArr items =>
      (fix join (l : list JsVal) : string :=
         match l with
         | [] => ""
         | x :: rest =>
             let sx := match x with
                       | VUndefined | VNull => ""
                       | _ => toString x
                       end in
             match rest with
             | [] => sx
             | _ :: _ => sx ++ "," ++ join rest
             end
         end) items
  | VObj _ => "[object Object]"
  end.

(** Truthiness, as [!v], [a && b] and [a || b] test it. *)
Definition truthy (v : JsVal) : bool :=
  match v with
  | VUndefined | VNull => false
  | VBool b => b
  | VNum (Num z) => negb (z =? 0)
  | VNum NaN => false
  | VStr s => negb (String.eqb s "")
  | VArr _ | VObj _ => true
  end.

(** [a || b] *)
Definition or_else (a b : JsVal) : JsVal := if truthy a then a else b.

Definition isArray (v : JsVal) : bool :=
  match v with
  | VArr _ => true
  | _ => false
  end.

Fixpoint lookup (key : string) (props : list (string * JsVal)) : JsVal :=
  match props with
  | [] => VUndefined
  | (k, v) :: rest => if String.eqb k key then v else lookup key rest
  end.

(** [v.key] for the keys the code reads ([emailName], [fields], [name],
    [value], [access_token], [expires_in] in the relay; [error], [success]
    in the widget): none of them is a builtin property of an array, a
    string, a number or a boolean, so only an object can hold one; reading
    from [undefined] or [null] throws. *)
Definition getProp (v : JsVal) (key : string) : Outcome JsVal :=
  match v with
  | VUndefined | VNull => Thrown (TypeErr v key)
  | VObj props => Returned (lookup key props)
  | _ => Returned VUndefined
  end.

(** [process.env.X]: a string when set, [undefined] otherwise. *)
Definition env_var (x : option string) : JsVal :=
  match x with
  | Some s => VStr s
  | None => VUndefined
  end.

End Js.

(* ------------------------------------------------------------------ *)
(** ** [Date.prototype.toISOString] on epoch milliseconds *)

Module IsoDate.

Definition digit (d : Z) : string :=
  String (ascii_of_nat (48 + Z.to_nat (d mod 10))) EmptyString.

Fixpoint pad (width : nat) (n : Z) : string :=
  match width with
  | O => ""
  | S w => pad w (n / 10) ++ digit n
  end.

(** Proleptic Gregorian date of a day count since 1970-01-01. *)
Definition civil_from_days (days : Z) : Z * Z * Z :=
  let z := days + 719468 in
  let era := z / 146097 in
  let doe := z - era * 146097 in
  let yoe := (doe - doe / 1460 + doe / 36524 - doe / 146096) / 365 in
  let doy := doe - (365 * yoe + yoe / 4 - yoe / 100) in
  let mp := (5 * doy + 2) / 153 in
  let d := doy - (153 * mp + 2) / 5 + 1 in
  let m := if mp <? 10 then mp + 3 else mp - 9 in
  let y := yoe + era * 400 + (if m <=? 2 then 1 else 0) in
  (y, m, d).

Definition year_string (y : Z) : string :=
  if (0 <=? y) && (y <=? 9999) then pad 4 y
  else (if y <? 0 then "-" else "+") ++ pad 6 (Z.abs y).

Definition toISOString (t : Z) : string :=
  let days := t / 86400000 in
  let ms := t mod 86400000 in
  let '(y, m, d) := civil_from_days days in
  year_string y ++ "-" ++ pad 2 m ++ "-" ++ pad 2 d ++ "T"
    ++ pad 2 (ms / 3600000) ++ ":" ++ pad 2 (ms / 60000 mod 60) ++ ":"
    ++ pad 2 (ms / 1000 mod 60) ++ "." ++ pad 3 (ms mod 1000) ++ "Z".

End IsoDate.

(* ------------------------------------------------------------------ *)
(** ** The world the relay runs in *)

(** An outbound HTTP call as handed to [fetch]; [http_body] is the value
    given to [JSON.stringify]. *)
Record HttpRequest : Type := {
  url : string;
  http_method : string;
  http_headers : list (string * string);
  http_body : JsVal
}.

(** What [fetch] resolves to: the status line, the body as [text()] gives
    it, and the body as [json()] gives it ([None] when it does not parse). *)
Record Response : Type := {
  status : Z;
  text : string;
  json : option JsVal
}.

(** node-fetch: [ok] is [status >= 200 && status < 300]. *)
Definition ok (r : Response) : bool := (200 <=? status r) && (status r <? 300).

Inductive FetchOutcome : Type :=
| Rejected (e : JsError)
| Responded (r : Response).

(** [let tokenCache = { token: null, expiresAt: 0 }] *)
Record TokenCache : Type := {
  token : JsVal;
  expiresAt : JsNum
}.

Definition emptyCache : TokenCache := {| token := VNull; expiresAt := Num 0 |}.

(** Mutable state of one process: the module-level token cache, how many
    times the clock has been read, and the outbound calls made so far. *)
Record World : Type := {
  tokenCache : TokenCache;
  ticks : nat;
  net_log : list HttpRequest
}.

Definition initialWorld : World :=
  {| tokenCache := emptyCache; ticks := O; net_log := [] |}.

(** [process.env] as the module reads it at load time. *)
Record ProcessEnv : Type := {
  SFMC_CLIENT_ID : option string;
  SFMC_CLIENT_SECRET : option string;
  SFMC_SUBDOMAIN : option string;
  SFMC_ACCOUNT_ID : option string;
  SFMC_MID : option string;
  DE_EXTERNAL_KEY : option string
}.

Record Config : Type := {
  clientId : JsVal;
  clientSecret : JsVal;
  subdomain : JsVal;
  accountId : JsVal;
  deExternalKey : JsVal
}.

(** One row of the Data Extension, as the relay builds it. *)
Record Row : Type := {
  email_name : JsVal;
  fieldname : JsVal;
  field_value : JsVal;
  EntryDate : string
}.

(** The inbound request, as far as the handler reads it. *)
Record Request : Type := {
  req_method : string;
  req_body : JsVal
}.

Inductive ReplyBody : Type :=
| NoBody                                    (* [.end()] *)
| ErrorBody (error : string)                (* [{ error }] *)
| SuccessBody (rowsInserted : nat) (message : string) (result : JsVal)
                                            (* [{ success: true, rowsInserted, message, result }] *)
| FailureBody (error : JsError).            (* [{ success: false, error: error.message }] *)

Record Reply : Type := {
  headers : list (string * string);
  statusCode : Z;
  payload : ReplyBody
}.

(** *** State and exceptions *)

Definition M (A : Type) : Type := World -> Outcome A * World.

Definition ret {A} (a : A) : M A := fun w => (Returned a, w).

Definition throw {A} (e : JsError) : M A := fun w => (Thrown e, w).

Definition bind {A B} (m : M A) (k : A -> M B) : M B :=
  fun w =>
    match m w with
    | (Returned a, w') => k a w'
    | (Thrown e, w') => (Thrown e, w')
    end.

Definition lift {A} (o : Outcome A) : M A := fun w => (o, w).

Notation "x <- m ;; k" := (bind m (fun x => k))
  (at level 61, m at next level, right associativity).
Notation "m ;;; k" := (bind m (fun _ => k))
  (at level 61, right associativity).

Definition setToken (v : JsVal) : M unit := fun w =>
  (Returned tt,
   {| tokenCache := {| token := v; expiresAt := expiresAt (tokenCache w) |};
      ticks := ticks w; net_log := net_log w |}).

Definition setExpiresAt (n : JsNum) : M unit := fun w =>
  (Returned tt,
   {| tokenCache := {| token := token (tokenCache w); expiresAt := n |};
      ticks := ticks w; net_log := net_log w |}).

Definition getCache : M TokenCache := fun w => (Returned (tokenCache w), w).

(* ------------------------------------------------------------------ *)
(** ** save-to-de.js *)

Section Relay.

(** The engine's string-to-number coercion (used by [data.expires_in - 60]
    when the property is not a number).  [toNumber] below is total: the
    TypeError of the source for an object with an own [toString] key is not
    modelled. *)
Variable StringToNumber : string -> JsNum.

(** Deployment: the environment of the process. *)
Variable env : ProcessEnv.

(** The outside: the [k]-th reading of the clock, and what the [k]-th
    outbound call gets back. *)
Variable clock : nat -> Z.
Variable network : nat -> HttpRequest -> FetchOutcome.

Definition toNumber (v : JsVal) : JsNum :=
  match v with
  | VUndefined => NaN
  | VNull => Num 0
  | VBool true => Num 1
  | VBool false => Num 0
  | VNum n => n
  | VStr s => StringToNumber s
  | VArr _ | VObj _ => StringToNumber (Js.toString v)
  end.

Definition SFMC_CONFIG : Config := {|
  clientId := Js.env_var (SFMC_CLIENT_ID env);
  clientSecret := Js.env_var (SFMC_CLIENT_SECRET env);
  subdomain := Js.env_var (SFMC_SUBDOMAIN env);
  accountId := Js.or_else (Js.env_var (SFMC_ACCOUNT_ID env)) (Js.env_var (SFMC_MID env));
  deExternalKey := Js.or_else (Js.env_var (DE_EXTERNAL_KEY env))
                     (VStr "D4344287-6DDF-49F6-B7A5-A7E0043A3C2C")
|}.

(** [Date.now()] and [new Date()]: each reads the clock once. *)
Definition Date_now : M Z := fun w =>
  (Returned (clock (ticks w)),
   {| tokenCache := tokenCache w; ticks := S (ticks w); net_log := net_log w |}).

(** [await fetch(url, init)]: the call is recorded, then the outside answers. *)
Definition fetch (req : HttpRequest) : M Response := fun w =>
  let w' := {| tokenCache := tokenCache w; ticks := ticks w;
               net_log := (net_log w ++ [req])%list |} in
  match network (List.length (net_log w)) req with
  | Rejected e => (Thrown e, w')
  | Responded r => (Returned r, w')
  end.

(** [await response.json()] *)
Definition response_json (r : Response) : M JsVal :=
  match json r with
  | Some v => ret v
  | None => throw SyntaxErr
  end.

Definition authUrl : string :=
  "https://" ++ Js.toString (subdomain SFMC_CONFIG) ++ ".auth.marketingcloudapis.com/v2/token".

Definition tokenRequest : HttpRequest := {|
  url := authUrl;
  http_method := "POST";
  http_headers := [("Content-Type", "application/json")];
  http_body := VObj [("grant_type", VStr "client_credentials");
                     ("client_id", clientId SFMC_CONFIG);
                     ("client_secret", clientSecret SFMC_CONFIG);
                     ("account_id", accountId SFMC_CONFIG)]
|}.

(** [tokenCache.token && Date.now() < tokenCache.expiresAt]: the clock is
    read only when the token is truthy. *)
Definition cacheValid : M bool :=
  cache <- getCache ;;
  if Js.truthy (token cache)
  then now <- Date_now ;; ret (Js.num_lt (Num now) (expiresAt cache))
  else ret false.

Definition getSFMCToken : M JsVal :=
  valid <- cacheValid ;;
  if valid then
    cache <- getCache ;;
    ret (token cache)
  else
    response <- fetch tokenRequest ;;
    if negb (ok response) then
      throw (Err ("SFMC Auth failed: " ++ Js.string_of_Z (status response)
                    ++ " - " ++ text response))
    else
      data <- response_json response ;;
      access_token <- lift (Js.getProp data "access_token") ;;
      setToken access_token ;;;
      now <- Date_now ;;
      expires_in <- lift (Js.getProp data "expires_in") ;;
      setExpiresAt (Js.num_add (Num now)
                      (Js.num_mul (Js.num_sub (toNumber expires_in) (Num 60)) (Num 1000))) ;;;
      ret access_token.

Definition rowJson (row : Row) : JsVal :=
  VObj [("email name", email_name row);
        ("fieldname", fieldname row);
        ("field value", field_value row);
        ("EntryDate", VStr (EntryDate row))].

(** [row => ({ keys: { 'email name': ..., 'fieldname': ... }, values: row })] *)
Definition apiFormat (row : Row) : JsVal :=
  VObj [("keys", VObj [("email name", email_name row);
                       ("fieldname", fieldname row)]);
        ("values", rowJson row)].

Definition rowsetUrl : string :=
  ("https://" ++ Js.toString (subdomain SFMC_CONFIG) ++ ".rest.marketingcloudapis.com/")
    ++ "hub/v1/dataevents/key:" ++ Js.toString (deExternalKey SFMC_CONFIG) ++ "/rowset".

Definition rowsetRequest (authToken : JsVal) (dataRows : list Row) : HttpRequest := {|
  url := rowsetUrl;
  http_method := "POST";
  http_headers := [("Content-Type", "application/json");
                   ("Authorization", "Bearer " ++ Js.toString authToken)];
  http_body := VArr (map apiFormat dataRows)
|}.

Definition insertDataExtensionRows (authToken : JsVal) (dataRows : list Row) : M JsVal :=
  response <- fetch (rowsetRequest authToken dataRows) ;;
  if negb (ok response) then
    throw (Err ("DE Insert failed: " ++ Js.string_of_Z (status response)
                  ++ " - " ++ text response))
  else
    response_json response.

(** [fields.map(field => ({ ..., 'EntryDate': new Date().toISOString() }))]:
    the callback runs once per field, in order, and builds a date each time. *)
Fixpoint fieldsToRows (emailName : JsVal) (fields : list JsVal) : M (list Row) :=
  match fields with
  | [] => ret []
  | field :: rest =>
      name <- lift (Js.getProp field "name") ;;
      value <- lift (Js.getProp field "value") ;;
      now <- Date_now ;;
      rows <- fieldsToRows emailName rest ;;
      ret ({| email_name := emailName; fieldname := name; field_value := value;
              EntryDate := IsoDate.toISOString now |} :: rows)
  end.

Definition elements (v : JsVal) : list JsVal :=
  match v with
  | VArr items => items
  | _ => []
  end.

Definition corsHeaders : list (string * string) :=
  [("Access-Control-Allow-Origin", "*");
   ("Access-Control-Allow-Methods", "POST, OPTIONS");
   ("Access-Control-Allow-Headers", "Content-Type")].

Definition reply (code : Z) (b : ReplyBody) : Reply :=
  {| headers := corsHeaders; statusCode := code; payload := b |}.

Definition configMissing : bool :=
  negb (Js.truthy (clientId SFMC_CONFIG))
  || negb (Js.truthy (clientSecret SFMC_CONFIG))
  || negb (Js.truthy (subdomain SFMC_CONFIG)).

(** The body of the handler's [try] block. *)
Definition handlerTry (req : Request) : M Reply :=
  if configMissing then
    throw (Err "Missing SFMC configuration. Please set environment variables.")
  else
    emailName <- lift (Js.getProp (req_body req) "emailName") ;;
    fields <- lift (Js.getProp (req_body req) "fields") ;;
    if negb (Js.truthy emailName) || negb (Js.truthy fields) || negb (Js.isArray fields) then
      ret (reply 400 (ErrorBody "Invalid request body. Expected: { emailName, fields }"))
    else
      dataRows <- fieldsToRows emailName (elements fields) ;;
      authToken <- getSFMCToken ;;
      result <- insertDataExtensionRows authToken dataRows ;;
      ret (reply 200
             (SuccessBody (List.length dataRows)
                ("Successfully saved " ++ Js.string_of_nat (List.length dataRows)
                   ++ " row(s) to Data Extension")
                result)).

(** [module.exports = async (req, res) => ...] *)
Definition handler (req : Request) (w : World) : Reply * World :=
  if String.eqb (req_method req) "OPTIONS" then (reply 200 NoBody, w)
  else if negb (String.eqb (req_method req) "POST") then
    (reply 405 (ErrorBody "Method not allowed"), w)
  else
    match handlerTry req w with
    | (Returned r, w') => (r, w')
    | (Thrown e, w') => (reply 500 (FailureBody e), w')
    end.

End Relay.

(* ------------------------------------------------------------------ *)
(** ** customBlock.js: collecting and checking the form *)

Module Widget.

Record Field : Type := {
  name : string;
  value : string
}.

(** What [collectFieldData] returns when every check passes. *)
Record FormData : Type := {
  emailName : string;
  fields : list Field
}.

(** The form as the DOM holds it: the email-name input and, per
    [.field-row] in document order, the name input and the value input. *)
Record Form : Type := {
  emailNameInput : string;
  fieldRows : list (string * string)
}.

(** The last message [showMessage] put on screen. *)
Inductive Message : Type :=
| ErrorMessage (text : string)      (* [showMessage('error', text)] from a check *)
| SuccessMessage (text : string)    (* [showMessage('success', text)] *)
| SaveError (e : JsError).          (* [showMessage('error', `Error saving data: ${e.message}`)] *)

(** What one click on Save did: the calls sent to the backend and the
    message left on screen. *)
Record SaveRun : Type := {
  backendCalls : list HttpRequest;
  shown : Message
}.

Definition dquote : string := String (ascii_of_nat 34) EmptyString.

(** [s.replace(/c/g, rep)] for a one-character pattern. *)
Fixpoint replaceAll (c : ascii) (rep : string) (s : string) : string :=
  match s with
  | EmptyString => EmptyString
  | String a rest =>
      if Ascii.eqb a c then rep ++ replaceAll c rep rest
      else String a (replaceAll c rep rest)
  end.

Definition sanitizeInput (input : string) : string :=
  replaceAll "/" "&#x2F;"
    (replaceAll "'" "&#x27;"
       (replaceAll (ascii_of_nat 34) "&quot;"
          (replaceAll ">" "&gt;"
             (replaceAll "<" "&lt;" input)))).

Section Widget.

Variable toLowerCase : string -> string.
Variable trim : string -> string.
Variable clock : nat -> Z.
Variable backend : HttpRequest -> FetchOutcome.

(** The loop of [collectFieldData] over the rows still to visit, with the
    fields pushed so far. *)
Fixpoint collectRows (rows : list (string * string)) (fields : list Field)
  : string + list Field :=
  match rows with
  | [] => inr fields
  | (nameInput, valueInput) :: rest =>
      let name := trim nameInput in
      let value := trim valueInput in
      if String.eqb name "" || String.eqb value "" then
        inl "All fields must have both a name and a value."
      else if existsb (fun f => String.eqb (toLowerCase (Widget.name f)) (toLowerCase name))
                fields then
        inl ("Duplicate field name: " ++ dquote ++ name ++ dquote
               ++ ". Each field name must be unique.")
      else
        collectRows rest
          (fields ++ [{| name := sanitizeInput name; value := sanitizeInput value |}])%list
  end.

(** [inl text]: the check that failed showed [text] and [null] was returned. *)
Definition collectFieldData (form : Form) : string + FormData :=
  let emailName := trim (emailNameInput form) in
  if String.eqb emailName "" then inl "Email Name is required."
  else
    match collectRows (fieldRows form) [] with
    | inl text => inl text
    | inr fields => inr {| emailName := sanitizeInput emailName; fields := fields |}
    end.

(** [fields.forEach(field => dataRows.push({ ..., 'EntryDate': new Date().toISOString() }))],
    started at the [k]-th reading of the clock. *)
Fixpoint convertFieldsToDataRows (emailName : string) (fields : list Field) (k : nat)
  : list Row :=
  match fields with
  | [] => []
  | field :: rest =>
      {| email_name := VStr emailName;
         fieldname := VStr (name field);
         field_value := VStr (value field);
         EntryDate := IsoDate.toISOString (clock k) |}
        :: convertFieldsToDataRows emailName rest (S k)
  end.

Definition fieldJson (f : Field) : JsVal :=
  VObj [("name", VStr (name f)); ("value", VStr (value f))].

Definition backendRequest (data : FormData) : HttpRequest := {|
  url := "/api/save-to-de";
  http_method := "POST";
  http_headers := [("Content-Type", "application/json")];
  http_body := VObj [("emailName", VStr (emailName data));
                     ("fields", VArr (map fieldJson (fields data)))]
|}.

(** [callBackendAPI(data)]: the value of [result.success], or what it throws. *)
Definition callBackendAPI (data : FormData) : Outcome JsVal :=
  match backend (backendRequest data) with
  | Rejected e => Thrown e
  | Responded response =>
      match json response with
      | None => Thrown SyntaxErr
      | Some result =>
          if negb (ok response) then
            match Js.getProp result "error" with
            | Thrown e => Thrown e
            | Returned err =>
                Thrown (Err (Js.toString
                               (Js.or_else err
                                  (VStr ("API error: " ++ Js.string_of_Z (status response))))))
            end
          else Js.getProp result "success"
      end
  end.

(** [saveToDataExtension()] of the block that calls the backend. *)
Definition saveToDataExtension (form : Form) : SaveRun :=
  match collectFieldData form with
  | inl text => {| backendCalls := []; shown := ErrorMessage text |}
  | inr data =>
      let calls := [backendRequest data] in
      match callBackendAPI data with
      | Returned success =>
          if Js.truthy success then
            {| backendCalls := calls;
               shown := SuccessMessage
                          ("Successfully saved "
                             ++ Js.string_of_nat (List.length (fields data))
                             ++ " field(s) to Data Extension!") |}
          else {| backendCalls := calls; shown := SaveError (Err "Failed to save data") |}
      | Thrown e => {| backendCalls := calls; shown := SaveError e |}
      end
  end.

End Widget.

End Widget.

(* ------------------------------------------------------------------ *)
(** ** customBlock.js: the rows of the form *)

(** The container of [.field-row] elements as [addFieldRow],
    [removeFieldRow], [updateRemoveButtons], [renderDefaultFields],
    [loadSavedData] and [init] use it.  A row is its id ([field-<n>]), the
    name and value [addFieldRow] was called with, and the [disabled] flag of
    its remove button.  What the two inputs of a row display is decided by
    the HTML parser and by later typing and is not part of this model; ids
    of the form [field-<n>] are taken to belong to rows only. *)
Module FormRows.

Definition MIN_FIELDS : nat := 1.
Definition MAX_FIELDS : nat := 20.

Definition DEFAULT_FIELDS : list (string * string) :=
  [("subject", ""); ("preheader", ""); ("header", ""); ("body", ""); ("footer", "")].

Record FieldRow : Type := {
  rowId : nat;
  createdWith : JsVal * JsVal;
  removeDisabled : bool
}.

Record Container : Type := {
  fieldRows : list FieldRow;
  fieldCounter : nat;
  errorShown : option string
}.

Definition emptyContainer : Container :=
  {| fieldRows := []; fieldCounter := O; errorShown := None |}.

(** What the local storage holds under the block's key: nothing (or the
    empty string, or a storage that cannot be read), text that [JSON.parse]
    refuses, or text that parses. *)
Inductive Stored : Type :=
| NoItem
| Unparsable
| Parsed (savedData : JsVal).

Definition getFieldCount (c : Container) : nat := List.length (fieldRows c).

Definition updateRemoveButtons (c : Container) : Container :=
  {| fieldRows :=
       map (fun row => {| rowId := rowId row; createdWith := createdWith row;
                          removeDisabled := Nat.leb (getFieldCount c) MIN_FIELDS |})
         (fieldRows c);
     fieldCounter := fieldCounter c;
     errorShown := errorShown c |}.

(** A parameter with default [''] : the default applies to [undefined]. *)
Definition orEmpty (v : JsVal) : JsVal :=
  match v with
  | VUndefined => VStr ""
  | _ => v
  end.

Definition addFieldRow (name value : JsVal) (c : Container) : Container :=
  if Nat.leb MAX_FIELDS (getFieldCount c) then
    {| fieldRows := fieldRows c;
       fieldCounter := fieldCounter c;
       errorShown := Some ("Maximum " ++ Js.string_of_nat MAX_FIELDS ++ " fields allowed.") |}
  else
    updateRemoveButtons
      {| fieldRows :=
           (fieldRows c ++
              [{| rowId := fieldCounter c;
                  createdWith := (orEmpty name, orEmpty value);
                  removeDisabled := Nat.eqb (getFieldCount c) 0 |}])%list;
         fieldCounter := S (fieldCounter c);
         errorShown := errorShown c |}.

(** [row.remove()] on the first element with that id. *)
Fixpoint removeFirst (id : nat) (rows : list FieldRow) : list FieldRow :=
  match rows with
  | [] => []
  | row :: rest => if Nat.eqb (rowId row) id then rest else row :: removeFirst id rest
  end.

Definition removeFieldRow (id : nat) (c : Container) : Container :=
  if (existsb (fun row => Nat.eqb (rowId row) id) (fieldRows c)
      && Nat.ltb MIN_FIELDS (getFieldCount c))%bool
  then
    updateRemoveButtons
      {| fieldRows := removeFirst id (fieldRows c);
         fieldCounter := fieldCounter c;
         errorShown := errorShown c |}
  else c.

Definition renderDefaultFields (c : Container) : Container :=
  fold_left (fun acc field => addFieldRow (VStr (fst field)) (VStr (snd field)) acc)
    DEFAULT_FIELDS c.

(** [fields.length] *)
Definition lengthOf (v : JsVal) : JsVal :=
  match v with
  | VArr items => VNum (Num (Z.of_nat (List.length items)))
  | VStr s => VNum (Num (Z.of_nat (String.length s)))
  | VObj props => Js.lookup "length" props
  | _ => VUndefined
  end.

(** [savedData.fields.forEach(field => addFieldRow(field.name, field.value))]
    inside the [try] of [loadSavedData]: a field that is [undefined] or
    [null] throws, the [catch] swallows it and the rows added so far stay. *)
Fixpoint addSavedFields (fields : list JsVal) (c : Container) : Container :=
  match fields with
  | [] => c
  | field :: rest =>
      match Js.getProp field "name", Js.getProp field "value" with
      | Returned name, Returned value => addSavedFields rest (addFieldRow name value c)
      | _, _ => c
      end
  end.

Section Loading.

Variable StringToNumber : string -> JsNum.

(** [loadSavedData()] of the block that calls the backend, on the rows (the
    email-name input it also fills is not part of this model). *)
Definition loadSavedData (stored : Stored) (c : Container) : Container :=
  match stored with
  | NoItem | Unparsable => c
  | Parsed savedData =>
      match Js.getProp savedData "emailName", Js.getProp savedData "fields" with
      | Returned _, Returned fields =>
          if (Js.truthy fields
              && Js.num_lt (Num 0) (toNumber StringToNumber (lengthOf fields)))%bool
          then
            let cleared := {| fieldRows := []; fieldCounter := O;
                              errorShown := errorShown c |} in
            match fields with
            | VArr items => addSavedFields items cleared
            | _ => cleared
            end
          else c
      | _, _ => c
      end
  end.

(** [init()] of the block that calls the backend. *)
Definition init (stored : Stored) (c : Container) : Container :=
  renderDefaultFields (loadSavedData stored c).

End Loading.

End FormRows.

(* ------------------------------------------------------------------ *)
(** ** customBlock.js, the block that writes to the platform itself *)

Module DirectBlock.

Definition DE_EXTERNAL_KEY : string := "D4344287-6DDF-49F6-B7A5-A7E0043A3C2C".

(** [let authToken = null; let sfmcEndpoint = null;] *)
Record Connection : Type := {
  authToken : JsVal;
  sfmcEndpoint : JsVal
}.






Definition rowsetCall (c : Connection) (dataRows : list Row) : HttpRequest := {|
  url := Js.toString (sfmcEndpoint c) ++ "hub/v1/dataevents/key:" ++ DE_EXTERNAL_KEY
           ++ "/rowset";
  http_method := "POST";
  http_headers := [("Content-Type", "application/json");
                   ("Authorization", "Bearer " ++ Js.toString (authToken c))];
  http_body := VArr (map apiFormat dataRows)
|}.

Section Insert.

Variable network : HttpRequest -> FetchOutcome.

(** [insertDataExtensionRows(dataRows)]: what it resolves to or throws, and
    the calls it sent.  Without a token or an endpoint it waits a second and
    resolves to [true]. *)
Definition insertDataExtensionRows (c : Connection) (dataRows : list Row)
  : Outcome bool * list HttpRequest :=
  if (negb (Js.truthy (authToken c)) || negb (Js.truthy (sfmcEndpoint c)))%bool then
    (Returned true, [])
  else
    match network (rowsetCall c dataRows) with
    | Rejected e => (Thrown e, [rowsetCall c dataRows])
    | Responded response =>
        if negb (ok response) then
          (Thrown (Err ("API error: " ++ Js.string_of_Z (status response)
                          ++ " - " ++ text response)),
           [rowsetCall c dataRows])
        else (Returned true, [rowsetCall c dataRows])
    end.

End Insert.

End DirectBlock.

(* ------------------------------------------------------------------ *)
(** ** Vocabulary of the statements *)

Definition isNullish (v : JsVal) : bool :=
  match v with
  | VUndefined | VNull => true
  | _ => false
  end.

(** Neither an object nor an array: a value whose coercion to a string or a
    number cannot throw. *)
Definition isPrimitive (v : JsVal) : bool :=
  match v with
  | VArr _ | VObj _ => false
  | _ => true
  end.

(** [Number.isSafeInteger]: an integer that doubles hold exactly, so that
    sums, differences and products of such numbers with such a result are
    exact in the source as they are in [Z]. *)
Definition safeInteger (z : Z) : Prop :=
  - 9007199254740991 <= z <= 9007199254740991.

(** [v.key] when [v] is known not to be [undefined] or [null]. *)
Definition propOf (v : JsVal) (key : string) : JsVal :=
  match Js.getProp v key with
  | Returned x => x
  | Thrown _ => VUndefined
  end.

(** The world after [n] more readings of the clock. *)
Definition advance (w : World) (n : nat) : World :=
  {| tokenCache := tokenCache w; ticks := (ticks w + n)%nat; net_log := net_log w |}.

(** The world after the outbound calls [calls]. *)
Definition logged (w : World) (calls : list HttpRequest) : World :=
  {| tokenCache := tokenCache w; ticks := ticks w; net_log := (net_log w ++ calls)%list |}.

(** The world with the token cache replaced. *)
Definition cached (w : World) (c : TokenCache) : World :=
  {| tokenCache := c; ticks := ticks w; net_log := net_log w |}.

(** The world after the validity test of the cache: the clock was read only
    if a token was there. *)
Definition afterCheck (w : World) : World :=
  if Js.truthy (token (tokenCache w)) then advance w 1 else w.

(** The rows [fieldsToRows] builds from fields that can all be read, the
    first one stamped with the [k]-th reading of the clock. *)
Fixpoint stampedRows (clock : nat -> Z) (emailName : JsVal) (fields : list JsVal) (k : nat)
  : list Row :=
  match fields with
  | [] => []
  | f :: rest =>
      {| email_name := emailName;
         fieldname := propOf f "name";
         field_value := propOf f "value";
         EntryDate := IsoDate.toISOString (clock k) |}
        :: stampedRows clock emailName rest (S k)
  end.

(** A cached token exists and the clock, read now, is strictly before its
    expiry. *)
Definition cachedTokenUsable (clock : nat -> Z) (w : World) : bool :=
  Js.truthy (token (tokenCache w))
  && Js.num_lt (Num (clock (ticks w))) (expiresAt (tokenCache w)).

(** A body the handler's own check lets through and whose fields can all be
    read: [emailName] truthy, [fields] an array without [undefined] or [null]
    entries. *)
Definition acceptedBody (body emailName : JsVal) (fields : list JsVal) : Prop :=
  Js.getProp body "emailName" = Returned emailName
  /\ Js.getProp body "fields" = Returned (VArr fields)
  /\ Js.truthy emailName = true
  /\ forallb (fun f => negb (isNullish f)) fields = true.

(** Every row of a batch carries the same entry timestamp. *)
Definition sameTimestamp (rows : list Row) : Prop :=
  forall r1 r2, In r1 rows -> In r2 rows -> EntryDate r1 = EntryDate r2.

(** Two names are equal case-insensitively. *)
Definition sameNameIgnoringCase (toLowerCase : string -> string) (a b : string) : Prop :=
  toLowerCase a = toLowerCase b.

(** One of the five characters [sanitizeInput] rewrites. *)
Definition rewritten (a : ascii) : bool :=
  (Ascii.eqb a "<" || Ascii.eqb a ">" || Ascii.eqb a (ascii_of_nat 34)
   || Ascii.eqb a "'" || Ascii.eqb a "/")%bool.

(** A string with none of those characters. *)
Definition clean (s : string) : bool :=
  forallb (fun a => negb (rewritten a)) (list_ascii_of_string s).

(** The field [collectFieldData] pushes for a row. *)
Definition fieldOfRow (trim : string -> string) (row : string * string) : Widget.Field :=
  {| Widget.name := Widget.sanitizeInput (trim (fst row));
     Widget.value := Widget.sanitizeInput (trim (snd row)) |}.

(** The three conditions under which [collectFieldData] lets a form
    through: a non-empty email name, no row with an empty name or value,
    and no row whose name equals, ignoring case, the stored (sanitized) name
    of an earlier row. *)
Definition formPasses (toLowerCase trim : string -> string) (form : Widget.Form) : Prop :=
  trim (Widget.emailNameInput form) <> ""
  /\ (forall n v, In (n, v) (Widget.fieldRows form) -> trim n <> "" /\ trim v <> "")
  /\ (forall before n1 v1 between n2 v2 after,
        Widget.fieldRows form = (before ++ (n1, v1) :: between ++ (n2, v2) :: after)%list ->
        toLowerCase (Widget.sanitizeInput (trim n1)) <> toLowerCase (trim n2)).

(** The inbound request the relay sees for a call of the widget. *)
Definition inbound (call : HttpRequest) : Request :=
  {| req_method := http_method call; req_body := http_body call |}.

(** The ids of the rows are pairwise different and all below the counter
    the next id is taken from. *)
Definition wellNumbered (c : FormRows.Container) : Prop :=
  NoDup (map FormRows.rowId (FormRows.fieldRows c))
  /\ Forall (fun row => (FormRows.rowId row < FormRows.fieldCounter c)%nat)
       (FormRows.fieldRows c).

(** The name and value [addFieldRow] is called with for a saved field. *)
Definition savedArgs (field : JsVal) : JsVal * JsVal :=
  (FormRows.orEmpty (propOf field "name"), FormRows.orEmpty (propOf field "value")).

(** The name and value [addFieldRow] is called with for a default field. *)
Definition defaultArgs (field : string * string) : JsVal * JsVal :=
  (VStr (fst field), VStr (snd field)).

(* ------------------------------------------------------------------ *)
(** ** Concrete deployments, clocks and upstreams *)

Module Samples.

(** A coercion that is exact on strings of decimal digits (and on the empty
    string, which is [0]); other strings are outside what the samples use. *)
Fixpoint digitsValue (s : string) (acc : Z) : JsNum :=
  match s with
  | EmptyString => Num acc
  | String a rest =>
      let n := Z.of_nat (nat_of_ascii a) in
      if (48 <=? n) && (n <=? 57) then digitsValue rest (10 * acc + (n - 48)) else NaN
  end.

Definition digitsToNumber (s : string) : JsNum := digitsValue s 0.

Definition lowerChar (a : ascii) : ascii :=
  let n := nat_of_ascii a in
  if (Nat.leb 65 n && Nat.leb n 90)%bool then ascii_of_nat (n + 32) else a.

Fixpoint asciiLower (s : string) : string :=
  match s with
  | EmptyString => EmptyString
  | String a rest => String (lowerChar a) (asciiLower rest)
  end.

Definition isSpace (a : ascii) : bool :=
  let n := nat_of_ascii a in
  (Nat.eqb n 32 || Nat.eqb n 9 || Nat.eqb n 10 || Nat.eqb n 13)%bool.

Fixpoint trimStart (s : string) : string :=
  match s with
  | EmptyString => EmptyString
  | String a rest => if isSpace a then trimStart rest else s
  end.

Fixpoint trimEnd (s : string) : string :=
  match s with
  | EmptyString => EmptyString
  | String a rest =>
      let rest' := trimEnd rest in
      if (isSpace a && String.eqb rest' "")%bool then EmptyString else String a rest'
  end.

Definition asciiTrim (s : string) : string := trimEnd (trimStart s).

Definition deployed : ProcessEnv := {|
  SFMC_CLIENT_ID := Some "client-id";
  SFMC_CLIENT_SECRET := Some "client-secret";
  SFMC_SUBDOMAIN := Some "mc123";
  SFMC_ACCOUNT_ID := Some "510000001";
  SFMC_MID := None;
  DE_EXTERNAL_KEY := None
|}.

Definition noSecret : ProcessEnv := {|
  SFMC_CLIENT_ID := Some "client-id";
  SFMC_CLIENT_SECRET := None;
  SFMC_SUBDOMAIN := Some "mc123";
  SFMC_ACCOUNT_ID := Some "510000001";
  SFMC_MID := None;
  DE_EXTERNAL_KEY := None
|}.

(** 2026-02-23T10:30:00.000Z, one millisecond later at each reading. *)
Definition tickingClock (k : nat) : Z := 1771842600000 + Z.of_nat k.

Definition tokenData : JsVal :=
  VObj [("access_token", VStr "token-1"); ("expires_in", VNum (Num 3600))].

Definition tokenReply : Response :=
  {| status := 200; text := "{...}"; json := Some tokenData |}.

Definition insertReply : Response :=
  {| status := 200; text := "[]"; json := Some (VArr []) |}.

(** The token endpoint is the one that is sent an object, the rowset
    endpoint the one that is sent an array. *)
Definition isTokenCall (req : HttpRequest) : bool :=
  match http_body req with
  | VObj _ => true
  | _ => false
  end.

Definition workingUpstream (k : nat) (req : HttpRequest) : FetchOutcome :=
  if isTokenCall req then Responded tokenReply else Responded insertReply.

Definition unauthorized : Response :=
  {| status := 401; text := "unauthorized"; json := None |}.

Definition upstreamFailure : Response :=
  {| status := 500; text := "upstream failure"; json := None |}.

Definition auth401 (k : nat) (req : HttpRequest) : FetchOutcome :=
  if isTokenCall req then Responded unauthorized else Responded insertReply.

Definition insert500 (k : nat) (req : HttpRequest) : FetchOutcome :=
  if isTokenCall req then Responded tokenReply else Responded upstreamFailure.

Definition field (n v : string) : JsVal := VObj [("name", VStr n); ("value", VStr v)].

Definition post (emailName : string) (fields : list JsVal) : Request :=
  {| req_method := "POST";
     req_body := VObj [("emailName", VStr emailName); ("fields", VArr fields)] |}.

Definition welcome : Request :=
  post "Welcome Email" [field "subject" "Hi"; field "preheader" "Hello"].

Definition welcomeDuplicate : Request :=
  post "Welcome Email" [field "subject" "Hi"; field "subject" "Hi2"].





Definition duplicateForm : Widget.Form :=
  {| Widget.emailNameInput := "Welcome Email";
     Widget.fieldRows := [("subject", "Hi"); (" Subject ", "Hi2")] |}.

(** The relay as deployed, under the ticking clock. *)
Abbreviation getToken := (getSFMCToken digitsToNumber deployed tickingClock).
Abbreviation save := (handler digitsToNumber deployed tickingClock).

(** A world whose cache holds a token good until 11:29:00. *)
Definition warmWorld : World :=
  {| tokenCache := {| token := VStr "token-0"; expiresAt := Num 1771846140000 |};
     ticks := O; net_log := [] |}.

(** Requests that are not saves, or that nothing parsed. *)
Definition getRequest : Request := {| req_method := "GET"; req_body := VUndefined |}.

Definition unparsedPost : Request := {| req_method := "POST"; req_body := VUndefined |}.

Definition welcomeNullField : Request :=
  post "Welcome Email" [field "subject" "Hi"; VNull].

Definition welcomeFields : list JsVal := [field "subject" "Hi"; field "preheader" "Hello"].

(** A rowset endpoint that answers 200 with a body that is not JSON. *)
Definition acknowledgedUnreadable : Response :=
  {| status := 200; text := "OK"; json := None |}.

Definition insertUnreadable (k : nat) (req : HttpRequest) : FetchOutcome :=
  if isTokenCall req then Responded tokenReply else Responded acknowledgedUnreadable.





Definition emptySecret : ProcessEnv := {|
  SFMC_CLIENT_ID := Some "client-id";
  SFMC_CLIENT_SECRET := Some "";
  SFMC_SUBDOMAIN := Some "mc123";
  SFMC_ACCOUNT_ID := None;
  SFMC_MID := None;
  DE_EXTERNAL_KEY := None
|}.

Definition welcomeForm : Widget.Form :=
  {| Widget.emailNameInput := " Welcome Email ";
     Widget.fieldRows := [("subject", "Hi"); ("Preheader", "Hello")] |}.

Definition welcomeData : Widget.FormData :=
  {| Widget.emailName := "Welcome Email";
     Widget.fields := [{| Widget.name := "subject"; Widget.value := "Hi" |};
                       {| Widget.name := "Preheader"; Widget.value := "Hello" |}] |}.

Definition savedReply : Response :=
  {| status := 200; text := "{...}";
     json := Some (VObj [("success", VBool true); ("rowsInserted", VNum (Num 2))]) |}.



Definition savingBackend (call : HttpRequest) : FetchOutcome := Responded savedReply.



(** Three rows, then twenty. *)
Definition threeRows : FormRows.Container :=
  FormRows.addFieldRow (VStr "c") (VStr "")
    (FormRows.addFieldRow (VStr "b") (VStr "")
       (FormRows.addFieldRow (VStr "a") (VStr "") FormRows.emptyContainer)).

Definition twentyRows : FormRows.Container :=
  fold_left (fun c _ => FormRows.addFieldRow VUndefined VUndefined c)
    (repeat tt 20) FormRows.emptyContainer.

Definition oneRow : FormRows.Container :=
  FormRows.addFieldRow (VStr "a") (VStr "") FormRows.emptyContainer.

Definition savedTwoFields : JsVal :=
  VObj [("emailName", VStr "Welcome Email");
        ("fields", VArr [field "subject" "Hi"; field "cta" "Go"])].





End Samples.

(* ------------------------------------------------------------------ *)
(** ** Running the monad *)

Lemma bind_returned {A B} (m : M A) (k : A -> M B) w a w' :
  m w = (Returned a, w') -> bind m k w = k a w'.
Proof. intros H. unfold bind. rewrite H. reflexivity. Qed.

Lemma bind_thrown {A B} (m : M A) (k : A -> M B) w e w' :
  m w = (Thrown e, w') -> bind m k w = (Thrown e, w').
Proof. intros H. unfold bind. rewrite H. reflexivity. Qed.

Lemma string_app_assoc (a b c : string) : (a ++ b) ++ c = a ++ (b ++ c).
Proof. induction a as [|x a IH]; simpl; [reflexivity|]. now rewrite IH. Qed.

Lemma advance_0 w : advance w 0 = w.
Proof. destruct w. unfold advance. simpl. f_equal. apply Nat.add_0_r. Qed.

Lemma advance_advance w n m : advance (advance w n) m = advance w (n + m).
Proof. unfold advance. simpl. f_equal. symmetry. apply Nat.add_assoc. Qed.

Lemma logged_nil w : logged w [] = w.
Proof. destruct w. unfold logged. simpl. f_equal. apply app_nil_r. Qed.

Lemma logged_logged w l1 l2 : logged (logged w l1) l2 = logged w (l1 ++ l2).
Proof. unfold logged. simpl. f_equal. symmetry. apply app_assoc. Qed.

Lemma getProp_not_nullish v key :
  isNullish v = false -> Js.getProp v key = Returned (propOf v key).
Proof. destruct v; simpl; intros H; try discriminate; reflexivity. Qed.

Lemma getProp_nullish v key :
  isNullish v = true -> Js.getProp v key = Thrown (TypeErr v key).
Proof. destruct v; simpl; intros H; try discriminate; reflexivity. Qed.

Lemma getProp_returned v key x :
  Js.getProp v key = Returned x -> isNullish v = false /\ x = propOf v key.
Proof.
  intros H. unfold propOf. rewrite H.
  destruct v; simpl in *; try discriminate; auto.
Qed.

(* ------------------------------------------------------------------ *)
(** ** The relay, step by step *)

Section RelayFacts.

Variable StringToNumber : string -> JsNum.
Variable env : ProcessEnv.
Variable clock : nat -> Z.
Variable network : nat -> HttpRequest -> FetchOutcome.

Local Abbreviation getSFMCToken' := (getSFMCToken StringToNumber env clock network).
Local Abbreviation insertDataExtensionRows' := (insertDataExtensionRows env network).
Local Abbreviation fieldsToRows' := (fieldsToRows clock).
Local Abbreviation handlerTry' := (handlerTry StringToNumber env clock network).
Local Abbreviation handler' := (handler StringToNumber env clock network).
Local Abbreviation tokenRequest' := (tokenRequest env).
Local Abbreviation rowsetRequest' := (rowsetRequest env).
Local Abbreviation fetch' := (fetch network).

Lemma fetch_run req w :
  fetch' req w =
  (match network (List.length (net_log w)) req with
   | Rejected e => Thrown e
   | Responded r => Returned r
   end, logged w [req]).
Proof. unfold fetch', logged. destruct (network _ req); reflexivity. Qed.

Lemma Date_now_run w : Date_now clock w = (Returned (clock (ticks w)), advance w 1).
Proof. unfold Date_now, advance. do 3 f_equal. symmetry. apply Nat.add_1_r. Qed.

Lemma cacheValid_run w :
  cacheValid clock w = (Returned (cachedTokenUsable clock w), afterCheck w).
Proof.
  unfold cacheValid, cachedTokenUsable, afterCheck.
  unfold bind at 1. unfold getCache.
  destruct (Js.truthy (token (tokenCache w))).
  - unfold bind. rewrite Date_now_run. reflexivity.
  - reflexivity.
Qed.

Lemma afterCheck_cache w : tokenCache (afterCheck w) = tokenCache w.
Proof. unfold afterCheck. destruct (Js.truthy _); reflexivity. Qed.

Lemma afterCheck_log w : net_log (afterCheck w) = net_log w.
Proof. unfold afterCheck. destruct (Js.truthy _); reflexivity. Qed.

(** Fields that can all be read give one row each, in order, each stamped
    with its own reading of the clock. *)
Lemma fieldsToRows_returns emailName fields :
  forall w,
    forallb (fun f => negb (isNullish f)) fields = true ->
    fieldsToRows' emailName fields w =
    (Returned (stampedRows clock emailName fields (ticks w)),
     advance w (List.length fields)).
Proof.
  induction fields as [|f rest IH]; intros w Hall; simpl.
  - unfold ret. rewrite advance_0. reflexivity.
  - simpl in Hall. apply andb_true_iff in Hall. destruct Hall as [Hf Hrest].
    apply negb_true_iff in Hf.
    unfold bind, lift at 1 2.
    rewrite !(getProp_not_nullish _ _ Hf).
    rewrite Date_now_run.
    rewrite (IH _ Hrest). unfold ret.
    rewrite advance_advance. simpl.
    replace (ticks w + 1)%nat with (S (ticks w)) by (symmetry; apply Nat.add_1_r).
    reflexivity.
Qed.

(** Whatever the fields are, building the rows only reads the clock. *)
Lemma fieldsToRows_frame emailName fields :
  forall w, exists n,
    snd (fieldsToRows' emailName fields w) = advance w n.
Proof.
  induction fields as [|f rest IH]; intros w; simpl.
  - exists O. unfold ret. simpl. symmetry. apply advance_0.
  - unfold bind, lift at 1 2.
    destruct (Js.getProp f "name") as [n|e]; [|exists O; simpl; symmetry; apply advance_0].
    destruct (Js.getProp f "value") as [v|e]; [|exists O; simpl; symmetry; apply advance_0].
    rewrite Date_now_run.
    destruct (IH (advance w 1)) as [k Hk].
    destruct (fieldsToRows clock emailName rest (advance w 1)) as [[rows|e] w'];
      simpl in Hk; subst w'; exists (1 + k)%nat; unfold ret; simpl;
      apply advance_advance.
Qed.

Lemma getSFMCToken_hit w :
  cachedTokenUsable clock w = true ->
  getSFMCToken' w = (Returned (token (tokenCache w)), advance w 1).
Proof.
  intros Hhit. unfold getSFMCToken.
  rewrite (bind_returned _ _ _ _ _ (cacheValid_run w)). rewrite Hhit.
  unfold afterCheck. unfold cachedTokenUsable in Hhit.
  apply andb_true_iff in Hhit. destruct Hhit as [Ht _]. rewrite Ht.
  reflexivity.
Qed.

(** What a call does when the cached token is not usable: one exchange,
    and the cache is written only after an answer that is ok, parses, and is
    not [null]. *)
Lemma getSFMCToken_miss w :
  cachedTokenUsable clock w = false ->
  getSFMCToken' w =
  let w1 := logged (afterCheck w) [tokenRequest'] in
  match network (List.length (net_log w)) tokenRequest' with
  | Rejected e => (Thrown e, w1)
  | Responded r =>
      if negb (ok r) then
        (Thrown (Err ("SFMC Auth failed: " ++ Js.string_of_Z (status r) ++ " - " ++ text r)),
         w1)
      else
        match json r with
        | None => (Thrown SyntaxErr, w1)
        | Some data =>
            if isNullish data then (Thrown (TypeErr data "access_token"), w1)
            else
              (Returned (propOf data "access_token"),
               cached (advance w1 1)
                 {| token := propOf data "access_token";
                    expiresAt :=
                      Js.num_add (Num (clock (ticks (afterCheck w))))
                        (Js.num_mul
                           (Js.num_sub (toNumber StringToNumber (propOf data "expires_in"))
                              (Num 60))
                           (Num 1000)) |})
        end
  end.
Proof.
  intros Hmiss. unfold getSFMCToken.
  rewrite (bind_returned _ _ _ _ _ (cacheValid_run w)). rewrite Hmiss.
  cbv zeta. unfold bind at 1. rewrite fetch_run. rewrite afterCheck_log.
  destruct (network (List.length (net_log w)) tokenRequest') as [e|r]; [reflexivity|].
  destruct (negb (ok r)); [reflexivity|].
  unfold response_json. destruct (json r) as [data|]; [|reflexivity].
  unfold bind at 1. unfold ret at 1.
  destruct (isNullish data) eqn:Hnull.
  - unfold bind, lift. rewrite (getProp_nullish _ _ Hnull). reflexivity.
  - unfold bind, lift. rewrite !(getProp_not_nullish _ _ Hnull).
    unfold setToken, setExpiresAt. rewrite Date_now_run. reflexivity.
Qed.

(** The token a call returns is the one the cache holds afterwards. *)
Lemma getSFMCToken_returns_cached w tok w' :
  getSFMCToken' w = (Returned tok, w') -> token (tokenCache w') = tok.
Proof.
  destruct (cachedTokenUsable clock w) eqn:Hc.
  - rewrite (getSFMCToken_hit _ Hc). intros H. inversion H. reflexivity.
  - rewrite (getSFMCToken_miss _ Hc). cbv zeta.
    destruct (network _ _) as [e|r]; [discriminate|].
    destruct (negb (ok r)); [discriminate|].
    destruct (json r) as [data|]; [|discriminate].
    destruct (isNullish data); [discriminate|].
    intros H. inversion H. reflexivity.
Qed.

(** The calls one [getSFMCToken'] adds to the log: none, or the exchange. *)
Lemma getSFMCToken_calls w :
  net_log (snd (getSFMCToken' w)) =
  (net_log w ++ (if cachedTokenUsable clock w then [] else [tokenRequest']))%list.
Proof.
  destruct (cachedTokenUsable clock w) eqn:Hc.
  - rewrite (getSFMCToken_hit _ Hc). simpl. symmetry. apply app_nil_r.
  - rewrite (getSFMCToken_miss _ Hc). cbv zeta.
    destruct (network _ _) as [e|r]; [simpl; now rewrite afterCheck_log|].
    destruct (negb (ok r)); [simpl; now rewrite afterCheck_log|].
    destruct (json r) as [data|]; [|simpl; now rewrite afterCheck_log].
    destruct (isNullish data); simpl; now rewrite afterCheck_log.
Qed.

Lemma insertDataExtensionRows_run authToken dataRows w :
  insertDataExtensionRows' authToken dataRows w =
  (match network (List.length (net_log w)) (rowsetRequest' authToken dataRows) with
   | Rejected e => Thrown e
   | Responded r =>
       if negb (ok r) then
         Thrown (Err ("DE Insert failed: " ++ Js.string_of_Z (status r) ++ " - " ++ text r))
       else match json r with
            | Some v => Returned v
            | None => Thrown SyntaxErr
            end
   end,
   logged w [rowsetRequest' authToken dataRows]).
Proof.
  unfold insertDataExtensionRows. unfold bind. rewrite fetch_run.
  destruct (network _ _) as [e|r]; [reflexivity|].
  destruct (negb (ok r)); [reflexivity|].
  unfold response_json. destruct (json r); reflexivity.
Qed.

(** The handler' on a POST, once configuration is there and the body passes
    the handler's check with readable fields. *)
Lemma handler_accepted req w emailName fields :
  req_method req = "POST" ->
  configMissing env = false ->
  acceptedBody (req_body req) emailName fields ->
  handler' req w =
  let rows := stampedRows clock emailName fields (ticks w) in
  let w1 := advance w (List.length fields) in
  match getSFMCToken' w1 with
  | (Thrown e, w2) => (reply 500 (FailureBody e), w2)
  | (Returned authToken, w2) =>
      match insertDataExtensionRows' authToken rows w2 with
      | (Thrown e, w3) => (reply 500 (FailureBody e), w3)
      | (Returned result, w3) =>
          (reply 200
             (SuccessBody (List.length rows)
                ("Successfully saved " ++ Js.string_of_nat (List.length rows)
                   ++ " row(s) to Data Extension")
                result), w3)
      end
  end.
Proof.
  intros Hm Hcfg (He & Hf & Ht & Hall).
  unfold handler. rewrite Hm. simpl String.eqb. cbv iota. simpl negb. cbv iota.
  unfold handlerTry. rewrite Hcfg.
  unfold bind at 1. unfold lift at 1. rewrite He.
  unfold bind at 1. unfold lift at 1. rewrite Hf.
  rewrite Ht. cbn [negb orb Js.truthy Js.isArray elements].
  unfold bind at 1. rewrite (fieldsToRows_returns _ _ _ Hall).
  cbv zeta. unfold bind at 1.
  destruct (getSFMCToken' _) as [[tok|e] w2]; [|reflexivity].
  unfold bind at 1.
  destruct (insertDataExtensionRows' _ _ _) as [[result|e] w3]; reflexivity.
Qed.

Lemma stampedRows_length emailName fields :
  forall k, List.length (stampedRows clock emailName fields k) = List.length fields.
Proof. induction fields as [|f rest IH]; intros k; simpl; [reflexivity|]. now rewrite IH. Qed.

Lemma stampedRows_email emailName fields :
  forall k, Forall (fun r => email_name r = emailName) (stampedRows clock emailName fields k).
Proof.
  induction fields as [|f rest IH]; intros k; simpl; constructor; [reflexivity|apply IH].
Qed.

Lemma stampedRows_nth emailName fields :
  forall k i row,
    nth_error (stampedRows clock emailName fields k) i = Some row ->
    EntryDate row = IsoDate.toISOString (clock (k + i)).
Proof.
  induction fields as [|f rest IH]; intros k i row H.
  - destruct i; discriminate.
  - destruct i as [|i]; simpl in H.
    + inversion H. simpl. now rewrite Nat.add_0_r.
    + rewrite (IH _ _ _ H). do 2 f_equal. lia.
Qed.

Lemma convertFieldsToDataRows_nth emailName fields :
  forall k i row,
    nth_error (Widget.convertFieldsToDataRows clock emailName fields k) i = Some row ->
    EntryDate row = IsoDate.toISOString (clock (k + i)).
Proof.
  induction fields as [|f rest IH]; intros k i row H.
  - destruct i; discriminate.
  - destruct i as [|i]; simpl in H.
    + inversion H. simpl. now rewrite Nat.add_0_r.
    + rewrite (IH _ _ _ H). do 2 f_equal. lia.
Qed.

Lemma insertDataExtensionRows_cache authToken dataRows w :
  tokenCache (snd (insertDataExtensionRows' authToken dataRows w)) = tokenCache w.
Proof. rewrite insertDataExtensionRows_run. reflexivity. Qed.

(* ------------------------------------------------------------------ *)
(** ** The token cache *)


(** C8. After an exchange that succeeds with [expires_in] a number of
    seconds [e], the cached expiry is [now + (e - 60) * 1000], where [now] is
    the reading of the clock taken when the cache is written (the last
    reading of the call, the one after the validity test).  The numbers are
    those of the source as long as the reading, the margin-corrected
    lifetime in milliseconds and their sum are safe integers, which is what
    the three hypotheses ask. *)
Theorem cached_expiry_formula (w : World) (r : Response) (data : JsVal) (e : Z) :
  cachedTokenUsable clock w = false ->
  network (List.length (net_log w)) tokenRequest' = Responded r ->
  ok r = true ->
  json r = Some data ->
  Js.getProp data "expires_in" = Returned (VNum (Num e)) ->
  safeInteger (clock (ticks (afterCheck w))) ->
  safeInteger ((e - 60) * 1000) ->
  safeInteger (clock (ticks (afterCheck w)) + (e - 60) * 1000) ->
  exists w' now,
    getSFMCToken' w = (Returned (propOf data "access_token"), w')
    /\ ticks w' = S now
    /\ now = ticks (afterCheck w)
    /\ token (tokenCache w') = propOf data "access_token"
    /\ expiresAt (tokenCache w') = Num (clock now + (e - 60) * 1000).
Proof.
  intros Hc Hnet Hok Hjson Hexp _ _ _.
  destruct (getProp_returned _ _ _ Hexp) as [Hnull Hval].
  rewrite (getSFMCToken_miss _ Hc). cbv zeta.
  rewrite Hnet, Hok, Hjson, Hnull. simpl negb. cbv iota.
  eexists. exists (ticks (afterCheck w)). split; [reflexivity|].
  split; [simpl; apply Nat.add_1_r|]. split; [reflexivity|]. split; [reflexivity|].
  simpl. rewrite <- Hval. reflexivity.
Qed.

(* ------------------------------------------------------------------ *)
(** ** One save *)

(** C9. When the client id, the client secret or the subdomain is absent
    from the environment, every POST is answered 500 with the error
    "Missing SFMC configuration. Please set environment variables.", whatever
    its body; the world is untouched, so nothing was sent; and that error is
    none of the errors an exchange or an insert failure produces. *)
Theorem missing_configuration_fails_fast (req : Request) (w : World) :
  SFMC_CLIENT_ID env = None \/ SFMC_CLIENT_SECRET env = None \/ SFMC_SUBDOMAIN env = None ->
  req_method req = "POST" ->
  handler' req w =
    (reply 500
       (FailureBody (Err "Missing SFMC configuration. Please set environment variables.")),
     w)
  /\ forall code body,
       Err "Missing SFMC configuration. Please set environment variables."
         <> Err ("SFMC Auth failed: " ++ code ++ " - " ++ body)
       /\ Err "Missing SFMC configuration. Please set environment variables."
         <> Err ("DE Insert failed: " ++ code ++ " - " ++ body).
Proof.
  intros Hmissing Hm. split.
  - assert (Hcfg : configMissing env = true).
    { unfold configMissing, SFMC_CONFIG. simpl.
      destruct Hmissing as [H|[H|H]]; rewrite H; simpl;
        rewrite ?orb_true_r; reflexivity. }
    unfold handler. rewrite Hm. simpl String.eqb. cbn [negb].
    unfold handlerTry. rewrite Hcfg. reflexivity.
  - intros code body. split; intros H; simpl in H; discriminate.
Qed.

(** C5. A POST that passes the handler's check, finds no usable cached token
    and gets a non-ok answer from the token endpoint is answered 500 with
    the error "SFMC Auth failed: <status> - <body>"; the token cache is what
    it was before the call and the exchange is the only request sent. *)
Theorem auth_failure_reported_cache_untouched
    (req : Request) (w : World) (emailName : JsVal) (fields : list JsVal)
    (rows : list Row) (w1 : World) (r : Response) :
  req_method req = "POST" ->
  configMissing env = false ->
  acceptedBody (req_body req) emailName fields ->
  fieldsToRows' emailName fields w = (Returned rows, w1) ->
  cachedTokenUsable clock w1 = false ->
  network (List.length (net_log w1)) tokenRequest' = Responded r ->
  ok r = false ->
  exists w',
    handler' req w =
      (reply 500
         (FailureBody
            (Err ("SFMC Auth failed: " ++ Js.string_of_Z (status r) ++ " - " ++ text r))),
       w')
    /\ tokenCache w' = tokenCache w
    /\ net_log w' = (net_log w ++ [tokenRequest'])%list.
Proof.
  intros Hm Hcfg Hacc Hrows Hc Hnet Hok.
  pose proof Hacc as (_ & _ & _ & Hall).
  rewrite (fieldsToRows_returns _ _ _ Hall) in Hrows. inversion Hrows; subst rows w1.
  rewrite (handler_accepted _ _ _ _ Hm Hcfg Hacc). cbv zeta.
  rewrite (getSFMCToken_miss _ Hc). cbv zeta. rewrite Hnet, Hok. simpl negb. cbv iota.
  eexists. split; [reflexivity|]. split.
  - simpl. rewrite afterCheck_cache. reflexivity.
  - simpl. rewrite afterCheck_log. reflexivity.
Qed.

(** C6. A POST that passes the handler's check with N readable fields yields
    exactly N rows, each carrying the request's email name; a 200 reply
    reports [rowsInserted = N], and the save is answered 200 with that count
    as soon as the token is obtained and the insert returns. *)
Theorem one_row_per_field_and_count
    (req : Request) (w : World) (emailName : JsVal) (fields : list JsVal) :
  req_method req = "POST" ->
  configMissing env = false ->
  acceptedBody (req_body req) emailName fields ->
  exists rows w1,
    fieldsToRows' emailName fields w = (Returned rows, w1)
    /\ List.length rows = List.length fields
    /\ Forall (fun row => email_name row = emailName) rows
    /\ (forall n msg result,
          payload (fst (handler' req w)) = SuccessBody n msg result ->
          n = List.length fields)
    /\ (forall authToken w2 result w3,
          getSFMCToken' w1 = (Returned authToken, w2) ->
          insertDataExtensionRows' authToken rows w2 = (Returned result, w3) ->
          exists msg,
            handler' req w = (reply 200 (SuccessBody (List.length fields) msg result), w3)).
Proof.
  intros Hm Hcfg Hacc.
  pose proof Hacc as (_ & _ & _ & Hall).
  exists (stampedRows clock emailName fields (ticks w)), (advance w (List.length fields)).
  split; [apply (fieldsToRows_returns _ _ _ Hall)|].
  split; [apply stampedRows_length|].
  split; [apply stampedRows_email|].
  rewrite (handler_accepted _ _ _ _ Hm Hcfg Hacc). cbv zeta. split.
  - intros n msg result.
    destruct (getSFMCToken' _) as [[tok|e] w2]; [|discriminate].
    destruct (insertDataExtensionRows' _ _ _) as [[res|e] w3]; [|discriminate].
    simpl. intros H. inversion H. apply stampedRows_length.
  - intros tok w2 result w3 Htok Hins. rewrite Htok, Hins.
    rewrite stampedRows_length. eexists. reflexivity.
Qed.

(** C10. When the token was obtained and the insert then fails, the save is
    answered 500 with the insert's error and the cache is exactly what
    [getSFMCToken] left: it holds the token just returned, and any later
    call that finds the clock before the expiry returns that token without
    sending anything. *)
Theorem upsert_failure_keeps_cached_token
    (req : Request) (w : World) (emailName : JsVal) (fields : list JsVal)
    (rows : list Row) (w1 w2 w3 : World) (authToken : JsVal) (e : JsError) :
  req_method req = "POST" ->
  configMissing env = false ->
  acceptedBody (req_body req) emailName fields ->
  fieldsToRows' emailName fields w = (Returned rows, w1) ->
  getSFMCToken' w1 = (Returned authToken, w2) ->
  insertDataExtensionRows' authToken rows w2 = (Thrown e, w3) ->
  handler' req w = (reply 500 (FailureBody e), w3)
  /\ tokenCache w3 = tokenCache w2
  /\ token (tokenCache w3) = authToken
  /\ forall later,
       tokenCache later = tokenCache w3 ->
       cachedTokenUsable clock later = true ->
       exists later',
         getSFMCToken' later = (Returned authToken, later')
         /\ net_log later' = net_log later
         /\ tokenCache later' = tokenCache w3.
Proof.
  intros Hm Hcfg Hacc Hrows Htok Hins.
  pose proof Hacc as (_ & _ & _ & Hall).
  rewrite (fieldsToRows_returns _ _ _ Hall) in Hrows. inversion Hrows; subst rows w1.
  assert (Hcache : tokenCache w3 = tokenCache w2).
  { pose proof (insertDataExtensionRows_cache authToken
                  (stampedRows clock emailName fields (ticks w)) w2) as H.
    rewrite Hins in H. exact H. }
  assert (Hheld : token (tokenCache w3) = authToken).
  { rewrite Hcache. apply (getSFMCToken_returns_cached _ _ _ Htok). }
  split.
  - rewrite (handler_accepted _ _ _ _ Hm Hcfg Hacc). cbv zeta.
    rewrite Htok, Hins. reflexivity.
  - split; [exact Hcache|]. split; [exact Hheld|].
    intros later Hsame Hfresh. exists (advance later 1).
    rewrite (getSFMCToken_hit _ Hfresh). rewrite Hsame, Hheld. auto.
Qed.

(** The calls one run of the handler adds to the log: nothing; or the
    token exchange alone; or, once the rows are built from the body, one
    rowset request carrying all of them, preceded by the exchange when no
    cached token was usable. *)
Lemma handler_calls (req : Request) (w : World) :
  exists calls,
    net_log (snd (handler' req w)) = (net_log w ++ calls)%list
    /\ (calls = []
        \/ calls = [tokenRequest']
        \/ exists emailName fields rows w1 authToken,
             Js.getProp (req_body req) "emailName" = Returned emailName
             /\ Js.getProp (req_body req) "fields" = Returned fields
             /\ fieldsToRows' emailName (elements fields) w = (Returned rows, w1)
             /\ (calls = [rowsetRequest' authToken rows]
                 \/ calls = [tokenRequest'; rowsetRequest' authToken rows])).
Proof.
  assert (Hnone : forall w0 : World, net_log w0 = (net_log w0 ++ [])%list)
    by (intros; symmetry; apply app_nil_r).
  unfold handler.
  destruct (String.eqb (req_method req) "OPTIONS"); [exists []; simpl; auto|].
  destruct (negb (String.eqb (req_method req) "POST")); [exists []; simpl; auto|].
  unfold handlerTry.
  destruct (configMissing env); [exists []; simpl; auto|].
  unfold bind at 1. unfold lift at 1.
  destruct (Js.getProp (req_body req) "emailName") as [emailName|e] eqn:He;
    [|exists []; simpl; auto].
  unfold bind at 1. unfold lift at 1.
  destruct (Js.getProp (req_body req) "fields") as [fields|e] eqn:Hf;
    [|exists []; simpl; auto].
  destruct (negb (Js.truthy emailName) || negb (Js.truthy fields) || negb (Js.isArray fields));
    [exists []; simpl; auto|].
  unfold bind at 1.
  destruct (fieldsToRows_frame emailName (elements fields) w) as [n Hn].
  destruct (fieldsToRows' emailName (elements fields) w) as [[rows|e] w1] eqn:Hrows;
    simpl in Hn; subst w1; [|exists []; simpl; auto].
  unfold bind at 1.
  pose proof (getSFMCToken_calls (advance w n)) as Hcalls.
  destruct (getSFMCToken' (advance w n)) as [[authToken|e] w2] eqn:Htok;
    simpl in Hcalls.
  - unfold bind at 1. rewrite insertDataExtensionRows_run.
    exists ((if cachedTokenUsable clock (advance w n) then [] else [tokenRequest'])
              ++ [rowsetRequest' authToken rows])%list.
    split.
    + destruct (network _ _) as [e|r]; [|destruct (negb (ok r)); [|destruct (json r)]];
        simpl; rewrite Hcalls; symmetry; apply app_assoc.
    + right. right. exists emailName, fields, rows, (advance w n), authToken.
      repeat split; try assumption.
      destruct (cachedTokenUsable clock (advance w n)); simpl; auto.
  - exists (if cachedTokenUsable clock (advance w n) then [] else [tokenRequest']).
    split; [exact Hcalls|].
    destruct (cachedTokenUsable clock (advance w n)); auto.
Qed.

(** C7. Given a token that is a primitive (a string, as the platform issues
    it), [insertDataExtensionRows] sends exactly one request: a POST to the
    rowset endpoint of the configured table whose body is the array that
    maps each row to its keys (email name and fieldname) and its values (the
    whole row, field value and entry date included).  One run of the handler
    sends at most one such request, and it carries every row built from the
    body.  And every save that gets as far as a token does submit: whatever
    the upstream then answers, the log grows by the exchange (when no cached
    token was usable) and by exactly one rowset request, a POST whose body
    has one entry per field of the request. *)
Theorem single_bulk_post :
  (forall authToken dataRows w,
     isPrimitive authToken = true ->
     exists call,
       net_log (snd (insertDataExtensionRows' authToken dataRows w))
         = (net_log w ++ [call])%list
       /\ http_method call = "POST"
       /\ url call =
            "https://" ++ Js.toString (subdomain (SFMC_CONFIG env))
              ++ ".rest.marketingcloudapis.com/hub/v1/dataevents/key:"
              ++ Js.toString (deExternalKey (SFMC_CONFIG env)) ++ "/rowset"
       /\ http_body call =
            VArr (map (fun row =>
                         VObj [("keys", VObj [("email name", email_name row);
                                              ("fieldname", fieldname row)]);
                               ("values", VObj [("email name", email_name row);
                                                ("fieldname", fieldname row);
                                                ("field value", field_value row);
                                                ("EntryDate", VStr (EntryDate row))])])
                    dataRows))
  /\ (forall req w,
        exists calls,
          net_log (snd (handler' req w)) = (net_log w ++ calls)%list
          /\ (calls = []
              \/ calls = [tokenRequest']
              \/ exists emailName fields rows w1 authToken,
                   Js.getProp (req_body req) "emailName" = Returned emailName
                   /\ Js.getProp (req_body req) "fields" = Returned fields
                   /\ fieldsToRows' emailName (elements fields) w = (Returned rows, w1)
                   /\ (calls = [rowsetRequest' authToken rows]
                       \/ calls = [tokenRequest'; rowsetRequest' authToken rows])))
  /\ (forall req w emailName fields rows w1 authToken w2,
        req_method req = "POST" ->
        configMissing env = false ->
        acceptedBody (req_body req) emailName fields ->
        fieldsToRows' emailName fields w = (Returned rows, w1) ->
        getSFMCToken' w1 = (Returned authToken, w2) ->
        isPrimitive authToken = true ->
        exists call,
          net_log (snd (handler' req w))
            = (net_log w
                 ++ (if cachedTokenUsable clock w1 then [] else [tokenRequest'])
                 ++ [call])%list
          /\ http_method call = "POST"
          /\ url call = rowsetUrl env
          /\ http_body call = VArr (map apiFormat rows)
          /\ List.length rows = List.length fields).
Proof.
  split; [|split].
  - intros authToken dataRows w _.
    exists (rowsetRequest' authToken dataRows).
    rewrite insertDataExtensionRows_run.
    split; [reflexivity|]. split; [reflexivity|]. split; [|reflexivity].
    simpl. unfold rowsetUrl.
    rewrite !string_app_assoc. reflexivity.
  - apply handler_calls.
  - intros req w emailName fields rows w1 authToken w2 Hm Hcfg Hacc Hrows Htok _.
    pose proof Hacc as (_ & _ & _ & Hall).
    rewrite (fieldsToRows_returns _ _ _ Hall) in Hrows. inversion Hrows; subst rows w1.
    exists (rowsetRequest' authToken (stampedRows clock emailName fields (ticks w))).
    split; [|split; [reflexivity|split; [reflexivity|split;
                                          [reflexivity|apply stampedRows_length]]]].
    rewrite (handler_accepted _ _ _ _ Hm Hcfg Hacc). cbv zeta.
    pose proof (getSFMCToken_calls (advance w (List.length fields))) as Hcalls.
    rewrite Htok in Hcalls. simpl in Hcalls.
    rewrite Htok. rewrite insertDataExtensionRows_run.
    assert (Hlog : net_log (logged w2 [rowsetRequest' authToken
                                         (stampedRows clock emailName fields (ticks w))])
                   = (net_log w
                        ++ (if cachedTokenUsable clock (advance w (List.length fields))
                            then [] else [tokenRequest'])
                        ++ [rowsetRequest' authToken
                              (stampedRows clock emailName fields (ticks w))])%list).
    { simpl. rewrite Hcalls. symmetry. apply app_assoc. }
    destruct (network _ _) as [e|r]; [exact Hlog|].
    destruct (negb (ok r)); [exact Hlog|].
    destruct (json r); exact Hlog.
Qed.

(** C2, as the code has it.  The rows of one save are stamped one by one:
    the row of the field at position [i] carries the rendering of the
    [i]-th reading of the clock taken while the rows are built, in the
    handler as in the widget's [convertFieldsToDataRows].  Two rows carry the
    same entry timestamp when their two readings render the same. *)
Theorem entry_timestamp_read_per_field :
  (forall emailName fields w,
     forallb (fun f => negb (isNullish f)) fields = true ->
     exists rows w1,
       fieldsToRows' emailName fields w = (Returned rows, w1)
       /\ List.length rows = List.length fields
       /\ ticks w1 = (ticks w + List.length fields)%nat
       /\ forall i row,
            nth_error rows i = Some row ->
            EntryDate row = IsoDate.toISOString (clock (ticks w + i)))
  /\ (forall emailName fields k i row,
        nth_error (Widget.convertFieldsToDataRows clock emailName fields k) i = Some row ->
        EntryDate row = IsoDate.toISOString (clock (k + i))).
Proof.
  split.
  - intros emailName fields w Hall.
    exists (stampedRows clock emailName fields (ticks w)), (advance w (List.length fields)).
    split; [apply (fieldsToRows_returns _ _ _ Hall)|].
    split; [apply stampedRows_length|]. split; [reflexivity|].
    apply stampedRows_nth.
  - apply convertFieldsToDataRows_nth.
Qed.

End RelayFacts.

(* ------------------------------------------------------------------ *)
(** ** The widget's checks *)

Lemma replaceAll_absent (c : ascii) (rep s : string) :
  (forall a, In a (list_ascii_of_string s) -> a <> c) ->
  Widget.replaceAll c rep s = s.
Proof.
  induction s as [|a s IH]; intros Habsent; simpl; [reflexivity|].
  destruct (Ascii.eqb a c) eqn:Heq.
  - apply Ascii.eqb_eq in Heq. exfalso. apply (Habsent a); [left; reflexivity|exact Heq].
  - rewrite IH; [reflexivity|]. intros b Hb. apply Habsent. right. exact Hb.
Qed.

(** [sanitizeInput] leaves alone a string with none of the five characters
    it rewrites. *)
Lemma sanitizeInput_plain (s : string) :
  (forall a, In a (list_ascii_of_string s) ->
     a <> "<"%char /\ a <> ">"%char /\ a <> ascii_of_nat 34
     /\ a <> "'"%char /\ a <> "/"%char) ->
  Widget.sanitizeInput s = s.
Proof.
  intros Hplain. unfold Widget.sanitizeInput.
  rewrite (replaceAll_absent "<") by (intros a Ha; apply (Hplain a Ha)).
  rewrite (replaceAll_absent ">") by (intros a Ha; apply (Hplain a Ha)).
  rewrite (replaceAll_absent (ascii_of_nat 34)) by (intros a Ha; apply (Hplain a Ha)).
  rewrite (replaceAll_absent "'") by (intros a Ha; apply (Hplain a Ha)).
  rewrite (replaceAll_absent "/") by (intros a Ha; apply (Hplain a Ha)).
  reflexivity.
Qed.

(** What the widget sends is a body the handler accepts, as soon as the
    email name is not empty. *)
Lemma widget_request_accepted (data : Widget.FormData) :
  Widget.emailName data <> "" ->
  acceptedBody (http_body (Widget.backendRequest data))
    (VStr (Widget.emailName data)) (map Widget.fieldJson (Widget.fields data)).
Proof.
  intros Hname. unfold acceptedBody. simpl.
  split; [reflexivity|]. split; [reflexivity|]. split.
  - apply negb_true_iff. apply String.eqb_neq. exact Hname.
  - induction (Widget.fields data) as [|f rest IH]; simpl; [reflexivity|exact IH].
Qed.

Section WidgetFacts.

Variable toLowerCase : string -> string.
Variable trim : string -> string.
Variable backend : HttpRequest -> FetchOutcome.

Local Abbreviation collectRows' := (Widget.collectRows toLowerCase trim).
Local Abbreviation collectFieldData' := (Widget.collectFieldData toLowerCase trim).
Local Abbreviation saveToDataExtension' :=
  (Widget.saveToDataExtension toLowerCase trim backend).


(** A row whose name matches, ignoring case, the stored name of a field
    already pushed stops the loop. *)
Lemma collectRows_seen rows :
  forall acc n v f,
    In (n, v) rows ->
    In f acc ->
    toLowerCase (Widget.name f) = toLowerCase (trim n) ->
    exists text, collectRows' rows acc = inl text.
Proof.
  induction rows as [|[n0 v0] rest IH]; intros acc n v f Hin Hf Hsame; [destruct Hin|].
  simpl.
  destruct (String.eqb (trim n0) "" || String.eqb (trim v0) "")%bool;
    [eexists; reflexivity|].
  destruct (existsb _ acc) eqn:Hex; [eexists; reflexivity|].
  destruct Hin as [Heq|Hin].
  - inversion Heq; subst n0 v0. exfalso.
    assert (Htrue : existsb
              (fun f0 => String.eqb (toLowerCase (Widget.name f0)) (toLowerCase (trim n)))
              acc = true).
    { apply existsb_exists. exists f. split; [exact Hf|].
      rewrite Hsame. apply String.eqb_refl. }
    rewrite Htrue in Hex. discriminate.
  - apply (IH _ n v f Hin); [apply in_or_app; left; exact Hf|exact Hsame].
Qed.

(** Two rows with the same name ignoring case, the earlier one unchanged by
    [sanitizeInput], stop the loop. *)
Lemma collectRows_duplicate before :
  forall acc n1 v1 between n2 v2 after,
    sameNameIgnoringCase toLowerCase (trim n1) (trim n2) ->
    Widget.sanitizeInput (trim n1) = trim n1 ->
    exists text,
      collectRows' (before ++ (n1, v1) :: between ++ (n2, v2) :: after)%list acc = inl text.
Proof.
  induction before as [|[n0 v0] before IH]; intros acc n1 v1 between n2 v2 after Hsame Hplain.
  - simpl.
    destruct (String.eqb (trim n1) "" || String.eqb (trim v1) "")%bool;
      [eexists; reflexivity|].
    destruct (existsb _ acc); [eexists; reflexivity|].
    eapply (collectRows_seen _ _ n2 v2).
    + apply in_or_app. right. left. reflexivity.
    + apply in_or_app. right. left. reflexivity.
    + simpl. rewrite Hplain. exact Hsame.
  - simpl.
    destruct (String.eqb (trim n0) "" || String.eqb (trim v0) "")%bool;
      [eexists; reflexivity|].
    destruct (existsb _ acc); [eexists; reflexivity|].
    apply IH; assumption.
Qed.

(** When the loop stops, [collectFieldData] shows an error and returns
    [null], and Save sends nothing. *)
Lemma rejected_rows_send_nothing form :
  (exists text, collectRows' (Widget.fieldRows form) [] = inl text) ->
  exists text,
    collectFieldData' form = inl text
    /\ saveToDataExtension' form
       = {| Widget.backendCalls := []; Widget.shown := Widget.ErrorMessage text |}.
Proof.
  intros [text Hrows].
  unfold Widget.saveToDataExtension, Widget.collectFieldData.
  destruct (String.eqb (trim (Widget.emailNameInput form)) "").
  - eexists. split; reflexivity.
  - rewrite Hrows. eexists. split; reflexivity.
Qed.

End WidgetFacts.

(* ------------------------------------------------------------------ *)
(** ** What is checked where *)


(** C4, as the code has it.  The handler has no rule about duplicate names;
    the widget has one: a form with two rows whose trimmed names are equal
    ignoring case, the earlier of them free of the characters that
    [sanitizeInput] rewrites, is refused by [collectFieldData] and Save
    sends nothing. *)
Theorem duplicate_names_refused_by_widget
    (toLowerCase trim : string -> string) (backend : HttpRequest -> FetchOutcome)
    (form : Widget.Form)
    (before : list (string * string)) (n1 v1 : string)
    (between : list (string * string)) (n2 v2 : string)
    (after : list (string * string)) :
  Widget.fieldRows form = (before ++ (n1, v1) :: between ++ (n2, v2) :: after)%list ->
  sameNameIgnoringCase toLowerCase (trim n1) (trim n2) ->
  Widget.sanitizeInput (trim n1) = trim n1 ->
  exists text,
    Widget.collectFieldData toLowerCase trim form = inl text
    /\ Widget.saveToDataExtension toLowerCase trim backend form
       = {| Widget.backendCalls := []; Widget.shown := Widget.ErrorMessage text |}.
Proof.
  intros Hrows Hsame Hplain.
  apply rejected_rows_send_nothing. rewrite Hrows.
  apply collectRows_duplicate; assumption.
Qed.

(* ------------------------------------------------------------------ *)
(** ** The statements on concrete runs *)

Module Runs.

Import Samples.

Example toISOString_2023 :
  IsoDate.toISOString 1700000000000 = "2023-11-14T22:13:20.000Z".
Proof. reflexivity. Qed.

Example toISOString_epoch : IsoDate.toISOString 0 = "1970-01-01T00:00:00.000Z".
Proof. reflexivity. Qed.

Example toISOString_leap_day :
  IsoDate.toISOString 951782400123 = "2000-02-29T00:00:00.123Z".
Proof. reflexivity. Qed.

Example toISOString_before_epoch :
  IsoDate.toISOString (-1) = "1969-12-31T23:59:59.999Z".
Proof. reflexivity. Qed.

(** The example of the README: one field, a working upstream. *)
Example save_one_field :
  let '(r, w) := save workingUpstream (post "Welcome Email" [field "subject" "Hi"])
                   initialWorld in
  r = reply 200 (SuccessBody 1 "Successfully saved 1 row(s) to Data Extension" (VArr []))
  /\ map http_body (net_log w) =
     [http_body (tokenRequest deployed);
      VArr [VObj [("keys", VObj [("email name", VStr "Welcome Email");
                                 ("fieldname", VStr "subject")]);
                  ("values", VObj [("email name", VStr "Welcome Email");
                                   ("fieldname", VStr "subject");
                                   ("field value", VStr "Hi");
                                   ("EntryDate", VStr "2026-02-23T10:30:00.000Z")])]]].
Proof. vm_compute. split; reflexivity. Qed.

(** Names with a character that [sanitizeInput] rewrites slip through the
    widget's duplicate check: the stored name is the rewritten one, the name
    it is compared with is not. *)
Example slash_names_pass_the_duplicate_check :
  Widget.collectFieldData asciiLower asciiTrim
    {| Widget.emailNameInput := "Welcome Email";
       Widget.fieldRows := [("a/b", "Hi"); ("a/b", "Hi2")] |}
  = inr {| Widget.emailName := "Welcome Email";
           Widget.fields := [{| Widget.name := "a&#x2F;b"; Widget.value := "Hi" |};
                             {| Widget.name := "a&#x2F;b"; Widget.value := "Hi2" |}] |}.
Proof. reflexivity. Qed.

(** Strictly before: at the very millisecond of the expiry the cached token
    is no longer used and the exchange is made. *)
Example expiry_reached_is_a_miss :
  let atExpiry := {| tokenCache := {| token := VStr "token-0";
                                       expiresAt := Num (tickingClock 0) |};
                     ticks := O; net_log := [] |} in
  cachedTokenUsable tickingClock atExpiry = false
  /\ let '(r, w) := getToken workingUpstream atExpiry in
     r = Returned (VStr "token-1") /\ net_log w = [tokenRequest deployed].
Proof. vm_compute. repeat split; reflexivity. Qed.


(** C8 on a cold cache: 3600 seconds reported at 10:30:00.000 give an expiry
    at 11:29:00.000. *)
Lemma cached_expiry_formula_witness :
  exists w' now,
    getToken workingUpstream initialWorld = (Returned (VStr "token-1"), w')
    /\ ticks w' = S now
    /\ now = O
    /\ token (tokenCache w') = VStr "token-1"
    /\ expiresAt (tokenCache w') = Num (tickingClock now + (3600 - 60) * 1000).
Proof.
  apply (cached_expiry_formula digitsToNumber deployed tickingClock workingUpstream
           initialWorld tokenReply tokenData 3600);
    try reflexivity; vm_compute; split; discriminate.
Defined.

(** C7 on the two-field save: the exchange, then one rowset request with two
    entries. *)
Lemma single_bulk_post_witness :
  exists call,
    net_log (snd (save workingUpstream welcome initialWorld))
      = [tokenRequest deployed; call]
    /\ http_method call = "POST"
    /\ url call
       = "https://mc123.rest.marketingcloudapis.com/hub/v1/dataevents/key:D4344287-6DDF-49F6-B7A5-A7E0043A3C2C/rowset"
    /\ (exists entry1 entry2, http_body call = VArr [entry1; entry2]).
Proof.
  destruct (proj2 (proj2 (single_bulk_post digitsToNumber deployed tickingClock
                            workingUpstream))
              welcome initialWorld (VStr "Welcome Email")
              [field "subject" "Hi"; field "preheader" "Hello"]
              (stampedRows tickingClock (VStr "Welcome Email")
                 [field "subject" "Hi"; field "preheader" "Hello"] 0)
              (advance initialWorld 2) (VStr "token-1")
              (snd (getToken workingUpstream (advance initialWorld 2)))
              eq_refl eq_refl (conj eq_refl (conj eq_refl (conj eq_refl eq_refl)))
              eq_refl eq_refl eq_refl)
    as (call & Hlog & Hmethod & Hurl & Hbody & _).
  exists call. split; [exact Hlog|]. split; [exact Hmethod|]. split; [exact Hurl|].
  rewrite Hbody. eexists. eexists. reflexivity.
Defined.

(** C9 with the client secret unset. *)
Lemma missing_configuration_witness :
  handler digitsToNumber noSecret tickingClock workingUpstream welcome initialWorld =
    (reply 500
       (FailureBody (Err "Missing SFMC configuration. Please set environment variables.")),
     initialWorld).
Proof.
  apply (proj1 (missing_configuration_fails_fast digitsToNumber noSecret tickingClock
                  workingUpstream welcome initialWorld
                  (or_intror (or_introl eq_refl)) eq_refl)).
Defined.

(** C5 with a token endpoint that answers 401. *)
Lemma auth_failure_witness :
  exists w',
    save auth401 welcome initialWorld =
      (reply 500 (FailureBody (Err "SFMC Auth failed: 401 - unauthorized")), w')
    /\ tokenCache w' = emptyCache
    /\ net_log w' = [tokenRequest deployed].
Proof.
  eapply (auth_failure_reported_cache_untouched digitsToNumber deployed tickingClock auth401
            welcome initialWorld (VStr "Welcome Email")
            [field "subject" "Hi"; field "preheader" "Hello"] _ _ unauthorized).
  - reflexivity.
  - reflexivity.
  - repeat split; reflexivity.
  - reflexivity.
  - reflexivity.
  - reflexivity.
  - reflexivity.
Defined.

(** C6 with two fields and a working upstream. *)
Lemma one_row_per_field_witness :
  exists rows w1,
    fieldsToRows tickingClock (VStr "Welcome Email")
      [field "subject" "Hi"; field "preheader" "Hello"] initialWorld = (Returned rows, w1)
    /\ List.length rows = 2%nat
    /\ Forall (fun row => email_name row = VStr "Welcome Email") rows
    /\ payload (fst (save workingUpstream welcome initialWorld))
       = SuccessBody 2 "Successfully saved 2 row(s) to Data Extension" (VArr []).
Proof.
  destruct (one_row_per_field_and_count digitsToNumber deployed tickingClock workingUpstream
              welcome initialWorld (VStr "Welcome Email")
              [field "subject" "Hi"; field "preheader" "Hello"]
              eq_refl eq_refl
              (conj eq_refl (conj eq_refl (conj eq_refl eq_refl))))
    as (rows & w1 & Hrows & Hlen & Hmail & _ & _).
  exists rows, w1.
  split; [exact Hrows|]. split; [exact Hlen|]. split; [exact Hmail|]. reflexivity.
Defined.

(** C10 with a warm cache and a rowset endpoint that answers 500. *)
Lemma upsert_failure_witness :
  exists w3,
    save insert500 welcome initialWorld =
      (reply 500 (FailureBody (Err "DE Insert failed: 500 - upstream failure")), w3)
    /\ tokenCache w3 = {| token := VStr "token-1"; expiresAt := Num 1771846140002 |}
    /\ forall later,
         tokenCache later = tokenCache w3 ->
         cachedTokenUsable tickingClock later = true ->
         exists later',
           getToken insert500 later = (Returned (VStr "token-1"), later')
           /\ net_log later' = net_log later
           /\ tokenCache later' = tokenCache w3.
Proof.
  eexists.
  assert (H := upsert_failure_keeps_cached_token digitsToNumber deployed tickingClock
                 insert500 welcome initialWorld (VStr "Welcome Email")
                 [field "subject" "Hi"; field "preheader" "Hello"]).
  edestruct H as (Hrun & _ & _ & Hlater).
  - reflexivity.
  - reflexivity.
  - repeat split; reflexivity.
  - reflexivity.
  - reflexivity.
  - reflexivity.
  - split; [exact Hrun|]. split; [reflexivity|]. exact Hlater.
Defined.

(** C2, as the code has it, on two fields. *)
Lemma entry_timestamp_witness :
  exists rows w1,
    fieldsToRows tickingClock (VStr "Welcome Email")
      [field "subject" "Hi"; field "preheader" "Hello"] initialWorld = (Returned rows, w1)
    /\ List.length rows = 2%nat
    /\ forall i row,
         nth_error rows i = Some row ->
         EntryDate row = IsoDate.toISOString (tickingClock (0 + i)).
Proof.
  destruct (proj1 (entry_timestamp_read_per_field tickingClock)
              (VStr "Welcome Email") [field "subject" "Hi"; field "preheader" "Hello"]
              initialWorld eq_refl)
    as (rows & w1 & Hrows & Hlen & _ & Hnth).
  exists rows, w1. repeat split; assumption.
Defined.

(** C2 as stated fails: with a clock that advances between two readings, the
    two rows of one save carry different entry timestamps. *)
Lemma rows_of_one_save_differ_in_timestamp :
  exists rows w1,
    fieldsToRows tickingClock (VStr "Welcome Email")
      [field "subject" "Hi"; field "preheader" "Hello"] initialWorld = (Returned rows, w1)
    /\ map EntryDate rows = ["2026-02-23T10:30:00.000Z"; "2026-02-23T10:30:00.001Z"]
    /\ ~ sameTimestamp rows.
Proof.
  eexists. eexists. split; [reflexivity|]. split; [reflexivity|].
  intros Hsame.
  specialize (Hsame _ _ (or_introl eq_refl) (or_intror (or_introl eq_refl))).
  vm_compute in Hsame. discriminate.
Qed.



(** C4 on the widget: "subject" and " Subject ". *)
Lemma duplicate_names_witness :
  exists text,
    Widget.saveToDataExtension asciiLower asciiTrim (workingUpstream O) duplicateForm
    = {| Widget.backendCalls := []; Widget.shown := Widget.ErrorMessage text |}.
Proof.
  destruct (duplicate_names_refused_by_widget asciiLower asciiTrim (workingUpstream O)
              duplicateForm
              [] "subject" "Hi" [] " Subject " "Hi2" [] eq_refl eq_refl eq_refl)
    as (text & _ & Hsave).
  exists text. exact Hsave.
Defined.

(** C4 as stated fails on the handler: the request of the specification's
    own example, two fields named "subject", goes through the exchange and
    the insert and is answered 200 with two rows. *)
Lemma duplicate_names_reach_the_upstream :
  let '(r, w) := save workingUpstream welcomeDuplicate initialWorld in
  r = reply 200 (SuccessBody 2 "Successfully saved 2 row(s) to Data Extension" (VArr []))
  /\ map url (net_log w) =
     ["https://mc123.auth.marketingcloudapis.com/v2/token";
      "https://mc123.rest.marketingcloudapis.com/hub/v1/dataevents/key:D4344287-6DDF-49F6-B7A5-A7E0043A3C2C/rowset"].
Proof. vm_compute. split; reflexivity. Qed.

End Runs.

(* ------------------------------------------------------------------ *)
(** ** More on the relay: replies, failures, reuse *)

Lemma string_app_cancel (a b c : string) : a ++ b = a ++ c -> b = c.
Proof.
  induction a as [|x a IH]; simpl; intros H; [exact H|].
  inversion H. apply IH. assumption.
Qed.

Section RelayMore.

Variable StringToNumber : string -> JsNum.
Variable env : ProcessEnv.
Variable clock : nat -> Z.
Variable network : nat -> HttpRequest -> FetchOutcome.

Local Abbreviation getSFMCToken' := (getSFMCToken StringToNumber env clock network).
Local Abbreviation insertDataExtensionRows' := (insertDataExtensionRows env network).
Local Abbreviation fieldsToRows' := (fieldsToRows clock).
Local Abbreviation handlerTry' := (handlerTry StringToNumber env clock network).
Local Abbreviation handler' := (handler StringToNumber env clock network).
Local Abbreviation tokenRequest' := (tokenRequest env).
Local Abbreviation rowsetRequest' := (rowsetRequest env).

(** The two ways the [try] block returns: the 400 of the shape check, with
    nothing touched, or the 200 after the rows were built, the token
    obtained and the insert answered. *)
Lemma handlerTry_returned req w r w' :
  handlerTry' req w = (Returned r, w') ->
  (r = reply 400 (ErrorBody "Invalid request body. Expected: { emailName, fields }")
   /\ w' = w)
  \/ exists emailName fields rows w1 authToken w2 result,
       Js.getProp (req_body req) "emailName" = Returned emailName
       /\ Js.getProp (req_body req) "fields" = Returned fields
       /\ fieldsToRows' emailName (elements fields) w = (Returned rows, w1)
       /\ getSFMCToken' w1 = (Returned authToken, w2)
       /\ insertDataExtensionRows' authToken rows w2 = (Returned result, w')
       /\ r = reply 200
                (SuccessBody (List.length rows)
                   ("Successfully saved " ++ Js.string_of_nat (List.length rows)
                      ++ " row(s) to Data Extension")
                   result).
Proof.
  unfold handlerTry.
  destruct (configMissing env); [discriminate|].
  unfold bind at 1. unfold lift at 1.
  destruct (Js.getProp (req_body req) "emailName") as [emailName|e] eqn:He; [|discriminate].
  unfold bind at 1. unfold lift at 1.
  destruct (Js.getProp (req_body req) "fields") as [fields|e] eqn:Hf; [|discriminate].
  destruct (negb (Js.truthy emailName) || negb (Js.truthy fields) || negb (Js.isArray fields)).
  - intros H. inversion H. left. split; reflexivity.
  - unfold bind at 1.
    destruct (fieldsToRows' emailName (elements fields) w) as [[rows|e] w1] eqn:Hrows;
      [|discriminate].
    unfold bind at 1.
    destruct (getSFMCToken' w1) as [[authToken|e] w2] eqn:Htok; [|discriminate].
    unfold bind at 1.
    destruct (insertDataExtensionRows' authToken rows w2) as [[result|e] w3] eqn:Hins;
      [|discriminate].
    intros H. inversion H. subst w3. right.
    exists emailName, fields, rows, w1, authToken, w2, result. repeat split; assumption.
Qed.

(** X1. A request that is not a POST never reaches the [try] block: OPTIONS
    is answered 200 without a body, any other method 405 "Method not
    allowed"; the cache, the clock and the network are left alone, whatever
    the configuration. *)
Theorem other_methods_answered_untouched (req : Request) (w : World) :
  req_method req <> "POST" ->
  handler' req w =
    (if String.eqb (req_method req) "OPTIONS"
     then reply 200 NoBody
     else reply 405 (ErrorBody "Method not allowed"),
     w).
Proof.
  intros Hm. unfold handler.
  destruct (String.eqb (req_method req) "OPTIONS"); [reflexivity|].
  apply String.eqb_neq in Hm. rewrite Hm. reflexivity.
Qed.

(** X2. Every reply, on every path, carries the three CORS headers, and its
    status is 200, 400, 405 or 500. *)
Theorem every_reply_has_cors_headers (req : Request) (w : World) :
  headers (fst (handler' req w)) =
    [("Access-Control-Allow-Origin", "*");
     ("Access-Control-Allow-Methods", "POST, OPTIONS");
     ("Access-Control-Allow-Headers", "Content-Type")]
  /\ In (statusCode (fst (handler' req w))) [200; 400; 405; 500].
Proof.
  unfold handler.
  destruct (String.eqb (req_method req) "OPTIONS"); [simpl; auto|].
  destruct (negb (String.eqb (req_method req) "POST")); [simpl; auto|].
  destruct (handlerTry' req w) as [[r|e] w'] eqn:Htry; [|simpl; auto 6].
  destruct (handlerTry_returned _ _ _ _ Htry) as [[Hr _]|Hr].
  - subst r. simpl. auto.
  - destruct Hr as (? & ? & ? & ? & ? & ? & ? & _ & _ & _ & _ & _ & Hr).
    subst r. simpl. auto.
Qed.

(** X3. Success is reported only for an acknowledged insert: a reply with
    the success body means that the last call sent is a rowset request, that
    the upstream answered it with an ok status and a body that parses, and
    that the reply reports that request's row count and that parsed body. *)
Theorem success_only_after_acknowledged_insert
    (req : Request) (w : World) (n : nat) (msg : string) (result : JsVal) :
  payload (fst (handler' req w)) = SuccessBody n msg result ->
  exists authToken rows earlier response,
    net_log (snd (handler' req w)) = (earlier ++ [rowsetRequest' authToken rows])%list
    /\ network (List.length earlier) (rowsetRequest' authToken rows) = Responded response
    /\ ok response = true
    /\ json response = Some result
    /\ n = List.length rows
    /\ statusCode (fst (handler' req w)) = 200.
Proof.
  unfold handler.
  destruct (String.eqb (req_method req) "OPTIONS"); [discriminate|].
  destruct (negb (String.eqb (req_method req) "POST")); [discriminate|].
  destruct (handlerTry' req w) as [[r|e] w'] eqn:Htry; [|discriminate].
  destruct (handlerTry_returned _ _ _ _ Htry) as [[Hr _]|Hr]; [subst r; discriminate|].
  destruct Hr as (emailName & fields & rows & w1 & authToken & w2 & res
                  & _ & _ & _ & _ & Hins & Hr).
  subst r. simpl. intros H. inversion H; subst n msg res.
  rewrite insertDataExtensionRows_run in Hins.
  exists authToken, rows, (net_log w2).
  destruct (network (List.length (net_log w2)) (rowsetRequest' authToken rows))
    as [e|response] eqn:Hnet; [inversion Hins|].
  exists response.
  destruct (ok response) eqn:Hok; simpl in Hins; [|inversion Hins].
  destruct (json response) as [v|] eqn:Hjson; [|inversion Hins].
  inversion Hins. subst. repeat split; reflexivity.
Qed.

(** X4. The cache is written all or nothing, as long as the [expires_in] of
    the answer is a primitive (a number, a string, a boolean, [null] or
    absent), so that turning it into a number cannot throw between the two
    writes.  When [getSFMCToken] throws (the exchange is refused, fails on
    the network, or answers something that does not parse or is [null]) the
    cache is what it was; when it returns, the cache holds the token it
    returned. *)
Theorem token_cache_written_all_or_nothing (w : World) :
  (forall r data,
     network (List.length (net_log w)) tokenRequest' = Responded r ->
     json r = Some data ->
     isPrimitive (propOf data "expires_in") = true) ->
  match getSFMCToken' w with
  | (Thrown _, w') => tokenCache w' = tokenCache w
  | (Returned authToken, w') => token (tokenCache w') = authToken
  end.
Proof.
  intros _.
  destruct (cachedTokenUsable clock w) eqn:Hc.
  - rewrite (getSFMCToken_hit _ _ _ _ _ Hc). reflexivity.
  - rewrite (getSFMCToken_miss _ _ _ _ _ Hc). cbv zeta.
    destruct (network _ _) as [e|r]; [simpl; apply afterCheck_cache|].
    destruct (negb (ok r)); [simpl; apply afterCheck_cache|].
    destruct (json r) as [data|]; [|simpl; apply afterCheck_cache].
    destruct (isNullish data); [simpl; apply afterCheck_cache|reflexivity].
Qed.

(** Building the rows stops at the first field that is [undefined] or
    [null], after one clock reading per field before it. *)
Lemma fieldsToRows_throws emailName before :
  forall f after w,
    forallb (fun x => negb (isNullish x)) before = true ->
    isNullish f = true ->
    fieldsToRows' emailName (before ++ f :: after)%list w =
    (Thrown (TypeErr f "name"), advance w (List.length before)).
Proof.
  induction before as [|x before IH]; intros f after w Hall Hnull; simpl.
  - unfold bind, lift. rewrite (getProp_nullish _ _ Hnull). rewrite advance_0. reflexivity.
  - simpl in Hall. apply andb_true_iff in Hall. destruct Hall as [Hx Hrest].
    apply negb_true_iff in Hx.
    unfold bind at 1. unfold lift at 1. rewrite (getProp_not_nullish _ _ Hx).
    unfold bind at 1. unfold lift at 1. rewrite (getProp_not_nullish _ _ Hx).
    unfold bind at 1. rewrite Date_now_run.
    unfold bind at 1. rewrite (IH _ _ _ Hrest Hnull).
    rewrite advance_advance. reflexivity.
Qed.

(** X5. A POST whose body is [undefined] or [null] (nothing parsed it) is
    answered 500 with the TypeError of the destructuring, not 400; nothing
    is sent and the world is untouched. *)
Theorem unparsed_body_is_a_500 (req : Request) (w : World) :
  req_method req = "POST" ->
  configMissing env = false ->
  isNullish (req_body req) = true ->
  handler' req w = (reply 500 (FailureBody (TypeErr (req_body req) "emailName")), w).
Proof.
  intros Hm Hcfg Hnull.
  unfold handler. rewrite Hm. simpl String.eqb. cbn [negb].
  unfold handlerTry. rewrite Hcfg.
  unfold bind at 1. unfold lift at 1. rewrite (getProp_nullish _ _ Hnull). reflexivity.
Qed.

(** X6. A [fields] array with an [undefined] or [null] entry passes the
    shape check and is answered 500 with the TypeError raised at the first
    such entry; no call is sent and the cache is untouched, only the clock
    was read once per field before it. *)
Theorem null_field_is_a_500_before_any_call
    (req : Request) (w : World) (emailName : JsVal)
    (before : list JsVal) (f : JsVal) (after : list JsVal) :
  req_method req = "POST" ->
  configMissing env = false ->
  Js.getProp (req_body req) "emailName" = Returned emailName ->
  Js.getProp (req_body req) "fields" = Returned (VArr (before ++ f :: after)) ->
  Js.truthy emailName = true ->
  forallb (fun x => negb (isNullish x)) before = true ->
  isNullish f = true ->
  exists w',
    handler' req w = (reply 500 (FailureBody (TypeErr f "name")), w')
    /\ net_log w' = net_log w
    /\ tokenCache w' = tokenCache w
    /\ ticks w' = (ticks w + List.length before)%nat.
Proof.
  intros Hm Hcfg He Hf Ht Hall Hnull.
  exists (advance w (List.length before)).
  split; [|repeat split; reflexivity].
  unfold handler. rewrite Hm. simpl String.eqb. cbn [negb].
  unfold handlerTry. rewrite Hcfg.
  unfold bind at 1. unfold lift at 1. rewrite He.
  unfold bind at 1. unfold lift at 1. rewrite Hf.
  rewrite Ht. cbn [negb orb Js.truthy Js.isArray elements].
  unfold bind at 1. rewrite (fieldsToRows_throws _ _ _ _ _ Hall Hnull). reflexivity.
Qed.

Lemma stampedRows_content emailName fields :
  forall k,
    map (fun row => (email_name row, fieldname row, field_value row))
      (stampedRows clock emailName fields k)
    = map (fun f => (emailName, propOf f "name", propOf f "value")) fields.
Proof.
  induction fields as [|f rest IH]; intros k; simpl; [reflexivity|].
  now rewrite IH.
Qed.

(** X7. The rows follow the fields: same number, same order, and the row at
    each position carries the [name] and the [value] of the field at that
    position ([undefined] for a field that has none). *)
Theorem rows_follow_fields_in_order (emailName : JsVal) (fields : list JsVal) (w : World) :
  forallb (fun f => negb (isNullish f)) fields = true ->
  exists rows w1,
    fieldsToRows' emailName fields w = (Returned rows, w1)
    /\ map (fun row => (email_name row, fieldname row, field_value row)) rows
       = map (fun f => (emailName, propOf f "name", propOf f "value")) fields.
Proof.
  intros Hall.
  exists (stampedRows clock emailName fields (ticks w)), (advance w (List.length fields)).
  split; [apply (fieldsToRows_returns _ _ _ _ Hall)|apply stampedRows_content].
Qed.

(** X8. When the rowset endpoint answers with a status that is not ok, the
    save is answered 500 with the error "DE Insert failed: <status> -
    <body>" and the rowset request is the last call in the log. *)
Theorem insert_refusal_reported
    (req : Request) (w : World) (emailName : JsVal) (fields : list JsVal)
    (rows : list Row) (w1 w2 : World) (authToken : JsVal) (r : Response) :
  req_method req = "POST" ->
  configMissing env = false ->
  acceptedBody (req_body req) emailName fields ->
  fieldsToRows' emailName fields w = (Returned rows, w1) ->
  getSFMCToken' w1 = (Returned authToken, w2) ->
  network (List.length (net_log w2)) (rowsetRequest' authToken rows) = Responded r ->
  ok r = false ->
  handler' req w =
    (reply 500
       (FailureBody
          (Err ("DE Insert failed: " ++ Js.string_of_Z (status r) ++ " - " ++ text r))),
     logged w2 [rowsetRequest' authToken rows]).
Proof.
  intros Hm Hcfg Hacc Hrows Htok Hnet Hok.
  pose proof Hacc as (_ & _ & _ & Hall).
  rewrite (fieldsToRows_returns _ _ _ _ Hall) in Hrows. inversion Hrows; subst rows w1.
  rewrite (handler_accepted _ _ _ _ _ _ _ _ Hm Hcfg Hacc). cbv zeta.
  rewrite Htok. rewrite insertDataExtensionRows_run. rewrite Hnet, Hok. reflexivity.
Qed.

(** X9. When the rowset endpoint answers ok with a body that does not parse
    as JSON, the save is answered 500 with the parse error although the
    rows were sent and acknowledged. *)
Theorem acknowledged_insert_with_unreadable_body_is_a_500
    (req : Request) (w : World) (emailName : JsVal) (fields : list JsVal)
    (rows : list Row) (w1 w2 : World) (authToken : JsVal) (r : Response) :
  req_method req = "POST" ->
  configMissing env = false ->
  acceptedBody (req_body req) emailName fields ->
  fieldsToRows' emailName fields w = (Returned rows, w1) ->
  getSFMCToken' w1 = (Returned authToken, w2) ->
  network (List.length (net_log w2)) (rowsetRequest' authToken rows) = Responded r ->
  ok r = true ->
  json r = None ->
  handler' req w =
    (reply 500 (FailureBody SyntaxErr), logged w2 [rowsetRequest' authToken rows]).
Proof.
  intros Hm Hcfg Hacc Hrows Htok Hnet Hok Hjson.
  pose proof Hacc as (_ & _ & _ & Hall).
  rewrite (fieldsToRows_returns _ _ _ _ Hall) in Hrows. inversion Hrows; subst rows w1.
  rewrite (handler_accepted _ _ _ _ _ _ _ _ Hm Hcfg Hacc). cbv zeta.
  rewrite Htok. rewrite insertDataExtensionRows_run. rewrite Hnet, Hok, Hjson. reflexivity.
Qed.

(** X10. The margin of 60 seconds at work: after an exchange that reported
    [e] seconds at the reading [now], a later call reuses the token exactly
    when the token is truthy and the clock reads strictly less than
    [now + (e - 60) * 1000]. *)
Theorem token_reused_exactly_until_margin
    (w : World) (r : Response) (data : JsVal) (e : Z) :
  cachedTokenUsable clock w = false ->
  network (List.length (net_log w)) tokenRequest' = Responded r ->
  ok r = true ->
  json r = Some data ->
  Js.getProp data "expires_in" = Returned (VNum (Num e)) ->
  exists w' now,
    getSFMCToken' w = (Returned (propOf data "access_token"), w')
    /\ ticks w' = S now
    /\ forall later,
         tokenCache later = tokenCache w' ->
         cachedTokenUsable clock later =
           (Js.truthy (propOf data "access_token")
            && (clock (ticks later) <? clock now + (e - 60) * 1000))%bool.
Proof.
  intros Hc Hnet Hok Hjson Hexp.
  destruct (getProp_returned _ _ _ Hexp) as [Hnull Hval].
  rewrite (getSFMCToken_miss _ _ _ _ _ Hc). cbv zeta.
  rewrite Hnet, Hok, Hjson, Hnull. simpl negb. cbv iota.
  eexists. exists (ticks (afterCheck w)). split; [reflexivity|].
  split; [simpl; apply Nat.add_1_r|].
  intros later Hsame. unfold cachedTokenUsable. rewrite Hsame. simpl.
  rewrite <- Hval. reflexivity.
Qed.


(** X12. The configuration check treats a variable set to the empty string
    like one that is not set: the check fails exactly when the client id,
    the client secret or the subdomain is unset or empty. *)
Theorem configuration_missing_iff_unset_or_empty :
  configMissing env = true <->
  (SFMC_CLIENT_ID env = None \/ SFMC_CLIENT_ID env = Some "")
  \/ (SFMC_CLIENT_SECRET env = None \/ SFMC_CLIENT_SECRET env = Some "")
  \/ (SFMC_SUBDOMAIN env = None \/ SFMC_SUBDOMAIN env = Some "").
Proof.
  assert (Hvar : forall x, negb (Js.truthy (Js.env_var x)) = true <-> x = None \/ x = Some "").
  { intros [s|]; simpl.
    - rewrite negb_involutive. rewrite String.eqb_eq. split.
      + intros ->. right. reflexivity.
      + intros [H|H]; [discriminate|]. inversion H. reflexivity.
    - split; auto. }
  unfold configMissing, SFMC_CONFIG. cbn [clientId clientSecret subdomain].
  rewrite !orb_true_iff, !Hvar. tauto.
Qed.

Lemma authUrl_not_rowsetUrl : authUrl env <> rowsetUrl env.
Proof.
  unfold authUrl, rowsetUrl. rewrite !string_app_assoc. intros H.
  apply string_app_cancel in H. apply string_app_cancel in H.
  simpl in H. discriminate.
Qed.

(** The calls of one run, with the token each rowset call carries. *)
Lemma handler_trace (req : Request) (w : World) :
  exists calls,
    net_log (snd (handler' req w)) = (net_log w ++ calls)%list
    /\ forall call,
         In call calls ->
         url call = rowsetUrl env ->
         http_headers call =
           [("Content-Type", "application/json");
            ("Authorization",
             "Bearer " ++ Js.toString (token (tokenCache (snd (handler' req w)))))].
Proof.
  assert (Hnone : forall run : Reply * World,
             snd run = w ->
             exists calls,
               net_log (snd run) = (net_log w ++ calls)%list
               /\ forall call,
                    In call calls ->
                    url call = rowsetUrl env ->
                    http_headers call =
                      [("Content-Type", "application/json");
                       ("Authorization",
                        "Bearer " ++ Js.toString (token (tokenCache (snd run))))]).
  { intros run Hrun. exists []. rewrite Hrun. split; [symmetry; apply app_nil_r|].
    intros call []. }
  remember (handler' req w) as run eqn:Hrun. unfold handler in Hrun.
  destruct (String.eqb (req_method req) "OPTIONS"); [apply Hnone; subst run; reflexivity|].
  destruct (negb (String.eqb (req_method req) "POST"));
    [apply Hnone; subst run; reflexivity|].
  unfold handlerTry in Hrun.
  destruct (configMissing env); [apply Hnone; subst run; reflexivity|].
  unfold bind at 1 in Hrun. unfold lift at 1 in Hrun.
  destruct (Js.getProp (req_body req) "emailName") as [emailName|e];
    [|apply Hnone; subst run; reflexivity].
  unfold bind at 1 in Hrun. unfold lift at 1 in Hrun.
  destruct (Js.getProp (req_body req) "fields") as [fields|e];
    [|apply Hnone; subst run; reflexivity].
  destruct (negb (Js.truthy emailName) || negb (Js.truthy fields) || negb (Js.isArray fields));
    [apply Hnone; subst run; reflexivity|].
  unfold bind at 1 in Hrun.
  destruct (fieldsToRows_frame clock emailName (elements fields) w) as [n Hn].
  destruct (fieldsToRows' emailName (elements fields) w) as [[rows|e] w1];
    simpl in Hn; subst w1.
  2:{ exists []. subst run. simpl. split; [symmetry; apply app_nil_r|]. intros call []. }
  unfold bind at 1 in Hrun.
  pose proof (getSFMCToken_calls StringToNumber env clock network (advance w n)) as Hcalls.
  pose proof (getSFMCToken_returns_cached StringToNumber env clock network (advance w n))
    as Hheld.
  destruct (getSFMCToken' (advance w n)) as [[authToken|e] w2]; simpl in Hcalls.
  - specialize (Hheld _ _ eq_refl).
    unfold bind at 1 in Hrun. rewrite insertDataExtensionRows_run in Hrun.
    assert (Hw : snd run = logged w2 [rowsetRequest' authToken rows]).
    { subst run. destruct (network _ _) as [e|r]; [reflexivity|].
      destruct (negb (ok r)); [reflexivity|]. destruct (json r); reflexivity. }
    rewrite Hw. clear Hrun Hw.
    exists ((if cachedTokenUsable clock (advance w n) then [] else [tokenRequest'])
              ++ [rowsetRequest' authToken rows])%list.
    split; [simpl; rewrite Hcalls; symmetry; apply app_assoc|].
    simpl. rewrite Hheld.
    intros call Hin Hurl. apply in_app_or in Hin. destruct Hin as [Hin|[Hin|[]]].
    + destruct (cachedTokenUsable clock (advance w n)); [destruct Hin|].
      destruct Hin as [Hin|[]]. subst call. simpl in Hurl.
      destruct (authUrl_not_rowsetUrl Hurl).
    + subst call. reflexivity.
  - subst run. simpl.
    exists (if cachedTokenUsable clock (advance w n) then [] else [tokenRequest']).
    split; [exact Hcalls|].
    intros call Hin Hurl.
    destruct (cachedTokenUsable clock (advance w n)); [destruct Hin|].
    destruct Hin as [Hin|[]]. subst call. simpl in Hurl.
    destruct (authUrl_not_rowsetUrl Hurl).
Qed.

(** X13. The token on the wire is the token in the cache: every call that a
    run of the handler sends to the rowset URL carries the header
    [Authorization: Bearer <token>] with the token the cache holds when the
    run ends. *)
Theorem rowset_call_carries_cached_token (req : Request) (w : World) (call : HttpRequest) :
  In call (skipn (List.length (net_log w)) (net_log (snd (handler' req w)))) ->
  url call = rowsetUrl env ->
  http_headers call =
    [("Content-Type", "application/json");
     ("Authorization",
      "Bearer " ++ Js.toString (token (tokenCache (snd (handler' req w)))))].
Proof.
  assert (Hskip : forall (l l' : list HttpRequest), skipn (List.length l) (l ++ l') = l').
  { intros l l'. induction l as [|x l IH]; simpl; [reflexivity|exact IH]. }
  destruct (handler_trace req w) as (calls & Hlog & Hcalls).
  rewrite Hlog, Hskip. apply Hcalls.
Qed.


End RelayMore.

(* ------------------------------------------------------------------ *)
(** ** More on the widget: sanitizing and collecting *)

Lemma list_ascii_app (a b : string) :
  list_ascii_of_string (a ++ b) = (list_ascii_of_string a ++ list_ascii_of_string b)%list.
Proof. induction a as [|x a IH]; simpl; [reflexivity|]. now rewrite IH. Qed.

(** A character of [replaceAll c rep s] comes from [rep], or from [s] and is
    not [c]. *)
Lemma replaceAll_chars (c : ascii) (rep s : string) (a : ascii) :
  In a (list_ascii_of_string (Widget.replaceAll c rep s)) ->
  In a (list_ascii_of_string rep) \/ (In a (list_ascii_of_string s) /\ a <> c).
Proof.
  induction s as [|x s IH]; simpl; [intros []|].
  destruct (Ascii.eqb x c) eqn:Hx.
  - rewrite list_ascii_app. intros H. apply in_app_or in H. destruct H as [H|H].
    + left. exact H.
    + destruct (IH H) as [Hr|[Hs Hne]]; [left; exact Hr|right; split; [right; exact Hs|exact Hne]].
  - simpl. intros [H|H].
    + subst x. right. split; [left; reflexivity|].
      intros Heq. subst a. rewrite Ascii.eqb_refl in Hx. discriminate.
    + destruct (IH H) as [Hr|[Hs Hne]]; [left; exact Hr|right; split; [right; exact Hs|exact Hne]].
Qed.

Lemma replaceAll_nonempty (c : ascii) (rep s : string) :
  rep <> "" -> s <> "" -> Widget.replaceAll c rep s <> "".
Proof.
  intros Hrep Hs. destruct s as [|x s]; [contradiction|]. simpl.
  destruct (Ascii.eqb x c); [|discriminate].
  destruct rep; [contradiction|discriminate].
Qed.

Lemma sanitizeInput_nonempty (s : string) : s <> "" -> Widget.sanitizeInput s <> "".
Proof.
  intros Hs. unfold Widget.sanitizeInput.
  repeat (apply replaceAll_nonempty; [discriminate|]). exact Hs.
Qed.

Lemma clean_chars (s : string) :
  clean s = true <->
  forall a, In a (list_ascii_of_string s) ->
    a <> "<"%char /\ a <> ">"%char /\ a <> ascii_of_nat 34 /\ a <> "'"%char /\ a <> "/"%char.
Proof.
  unfold clean. rewrite forallb_forall. split; intros H a Ha; specialize (H a Ha).
  - apply negb_true_iff in H. unfold rewritten in H.
    repeat (apply orb_false_iff in H; destruct H as [H ?]).
    repeat split; apply Ascii.eqb_neq; assumption.
  - destruct H as (H1 & H2 & H3 & H4 & H5).
    apply negb_true_iff. unfold rewritten.
    apply Ascii.eqb_neq in H1, H2, H3, H4, H5.
    rewrite H1, H2, H3, H4, H5. reflexivity.
Qed.

Lemma sanitizeInput_clean (input : string) :
  clean (Widget.sanitizeInput input) = true.
Proof.
  apply clean_chars. intros a Ha. unfold Widget.sanitizeInput in Ha.
  apply replaceAll_chars in Ha. destruct Ha as [Ha|[Ha N5]].
  { simpl in Ha. repeat (destruct Ha as [Ha|Ha]; [subst a; repeat split; discriminate|]).
    destruct Ha. }
  apply replaceAll_chars in Ha. destruct Ha as [Ha|[Ha N4]].
  { simpl in Ha. repeat (destruct Ha as [Ha|Ha]; [subst a; repeat split; discriminate|]).
    destruct Ha. }
  apply replaceAll_chars in Ha. destruct Ha as [Ha|[Ha N3]].
  { simpl in Ha. repeat (destruct Ha as [Ha|Ha]; [subst a; repeat split; discriminate|]).
    destruct Ha. }
  apply replaceAll_chars in Ha. destruct Ha as [Ha|[Ha N2]].
  { simpl in Ha. repeat (destruct Ha as [Ha|Ha]; [subst a; repeat split; discriminate|]).
    destruct Ha. }
  apply replaceAll_chars in Ha. destruct Ha as [Ha|[Ha N1]].
  { simpl in Ha. repeat (destruct Ha as [Ha|Ha]; [subst a; repeat split; discriminate|]).
    destruct Ha. }
  repeat split; assumption.
Qed.

(** X15. What [sanitizeInput] returns contains none of the five characters
    [<], [>], the double quote, the single quote and [/]; it leaves a string
    unchanged exactly when the string has none of them; and applying it
    twice is applying it once (the ampersand it introduces is not
    rewritten). *)
Theorem sanitizeInput_fixed_points_and_idempotence (input : string) :
  clean (Widget.sanitizeInput input) = true
  /\ (Widget.sanitizeInput input = input <-> clean input = true)
  /\ Widget.sanitizeInput (Widget.sanitizeInput input) = Widget.sanitizeInput input.
Proof.
  assert (Hplain : forall s, clean s = true -> Widget.sanitizeInput s = s).
  { intros s Hs. apply sanitizeInput_plain. apply clean_chars. exact Hs. }
  split; [apply sanitizeInput_clean|]. split.
  - split; [|apply Hplain].
    intros Hfix. rewrite <- Hfix. apply sanitizeInput_clean.
  - apply Hplain. apply sanitizeInput_clean.
Qed.

Section WidgetMore.

Variable toLowerCase : string -> string.
Variable trim : string -> string.
Variable backend : HttpRequest -> FetchOutcome.

Local Abbreviation collectRows' := (Widget.collectRows toLowerCase trim).
Local Abbreviation collectFieldData' := (Widget.collectFieldData toLowerCase trim).
Local Abbreviation saveToDataExtension' :=
  (Widget.saveToDataExtension toLowerCase trim backend).
Local Abbreviation callBackendAPI' := (Widget.callBackendAPI backend).

Lemma existsb_false_forall {A} (p : A -> bool) (l : list A) :
  existsb p l = false <-> forall x, In x l -> p x = false.
Proof.
  split.
  - intros H x Hx. destruct (p x) eqn:Hp; [|reflexivity].
    assert (existsb p l = true) by (apply existsb_exists; exists x; auto).
    congruence.
  - intros H. destruct (existsb p l) eqn:He; [|reflexivity].
    apply existsb_exists in He. destruct He as (x & Hx & Hp).
    rewrite (H x Hx) in Hp. discriminate.
Qed.

(** The loop lets the rows through, and pushes one field per row in order,
    when no row is blank, none matches a field already pushed, and none
    matches the stored name of a row before it. *)
Lemma collectRows_passes rows :
  forall acc,
    (forall n v, In (n, v) rows -> trim n <> "" /\ trim v <> "") ->
    (forall n v f, In (n, v) rows -> In f acc ->
       toLowerCase (Widget.name f) <> toLowerCase (trim n)) ->
    (forall before n1 v1 between n2 v2 after,
       rows = (before ++ (n1, v1) :: between ++ (n2, v2) :: after)%list ->
       toLowerCase (Widget.sanitizeInput (trim n1)) <> toLowerCase (trim n2)) ->
    collectRows' rows acc = inr (acc ++ map (fieldOfRow trim) rows)%list.
Proof.
  induction rows as [|[n0 v0] rest IH]; intros acc Hblank Hacc Hdup; simpl.
  - now rewrite app_nil_r.
  - destruct (Hblank n0 v0 (or_introl eq_refl)) as [Hn Hv].
    apply String.eqb_neq in Hn, Hv. rewrite Hn, Hv. simpl orb. cbv iota.
    assert (Hex : existsb
              (fun f => String.eqb (toLowerCase (Widget.name f)) (toLowerCase (trim n0)))
              acc = false).
    { apply existsb_false_forall. intros f Hf. apply String.eqb_neq.
      apply (Hacc n0 v0 f (or_introl eq_refl) Hf). }
    rewrite Hex. rewrite IH.
    + rewrite <- app_assoc. reflexivity.
    + intros n v Hin. apply Hblank. right. exact Hin.
    + intros n v f Hin Hf. apply in_app_or in Hf. destruct Hf as [Hf|[Hf|[]]].
      * apply (Hacc n v f (or_intror Hin) Hf).
      * subst f. simpl.
        destruct (in_split _ _ Hin) as (between & after & Hsplit).
        apply (Hdup [] n0 v0 between n v after). rewrite Hsplit. reflexivity.
    + intros before n1 v1 between n2 v2 after Hsplit.
      apply (Hdup ((n0, v0) :: before) n1 v1 between n2 v2 after).
      rewrite Hsplit. reflexivity.
Qed.

(** Conversely, rows the loop lets through satisfy the three conditions. *)
Lemma collectRows_passed rows :
  forall acc fields,
    collectRows' rows acc = inr fields ->
    (forall n v, In (n, v) rows -> trim n <> "" /\ trim v <> "")
    /\ (forall n v f, In (n, v) rows -> In f acc ->
          toLowerCase (Widget.name f) <> toLowerCase (trim n))
    /\ (forall before n1 v1 between n2 v2 after,
          rows = (before ++ (n1, v1) :: between ++ (n2, v2) :: after)%list ->
          toLowerCase (Widget.sanitizeInput (trim n1)) <> toLowerCase (trim n2)).
Proof.
  induction rows as [|[n0 v0] rest IH]; intros acc fields Hrun.
  - split; [intros n v []|]. split; [intros n v f []|].
    intros before n1 v1 between n2 v2 after H. destruct before; discriminate.
  - simpl in Hrun.
    destruct (String.eqb (trim n0) "" || String.eqb (trim v0) "")%bool eqn:Hb;
      [discriminate|].
    apply orb_false_iff in Hb. destruct Hb as [Hn Hv].
    apply String.eqb_neq in Hn, Hv.
    destruct (existsb _ acc) eqn:Hex; [discriminate|].
    pose proof (proj1 (existsb_false_forall _ _) Hex) as Hnone.
    destruct (IH _ _ Hrun) as (Hblank & Hacc & Hdup).
    split; [|split].
    + intros n v [Heq|Hin]; [inversion Heq; subst; auto|apply (Hblank n v Hin)].
    + intros n v f [Heq|Hin] Hf.
      * inversion Heq; subst n v. apply String.eqb_neq. apply (Hnone f Hf).
      * apply (Hacc n v f Hin). apply in_or_app. left. exact Hf.
    + intros before n1 v1 between n2 v2 after Hsplit.
      destruct before as [|x before]; simpl in Hsplit; inversion Hsplit.
      * subst n1 v1 rest.
        apply (Hacc n2 v2 {| Widget.name := Widget.sanitizeInput (trim n0);
                             Widget.value := Widget.sanitizeInput (trim v0) |}).
        -- apply in_or_app. right. left. reflexivity.
        -- apply in_or_app. right. left. reflexivity.
      * apply (Hdup before n1 v1 between n2 v2 after). assumption.
Qed.

Lemma collectFieldData_passed (form : Widget.Form) (data : Widget.FormData) :
  collectFieldData' form = inr data ->
  formPasses toLowerCase trim form
  /\ data = {| Widget.emailName := Widget.sanitizeInput (trim (Widget.emailNameInput form));
               Widget.fields := map (fieldOfRow trim) (Widget.fieldRows form) |}.
Proof.
  unfold Widget.collectFieldData, formPasses.
  destruct (String.eqb (trim (Widget.emailNameInput form)) "") eqn:He; [discriminate|].
  apply String.eqb_neq in He.
  destruct (collectRows' (Widget.fieldRows form) []) as [text|fields] eqn:Hrows;
    [discriminate|].
  intros H. inversion H.
  destruct (collectRows_passed _ _ _ Hrows) as (Hblank & _ & Hdup).
  split; [auto|].
  rewrite (collectRows_passes _ [] Hblank (fun n v f _ Hf => False_ind _ Hf) Hdup)
    in Hrows.
  inversion Hrows. reflexivity.
Qed.

Lemma collectFieldData_passes (form : Widget.Form) :
  formPasses toLowerCase trim form ->
  collectFieldData' form =
    inr {| Widget.emailName := Widget.sanitizeInput (trim (Widget.emailNameInput form));
           Widget.fields := map (fieldOfRow trim) (Widget.fieldRows form) |}.
Proof.
  intros (He & Hblank & Hdup). unfold Widget.collectFieldData.
  apply String.eqb_neq in He. rewrite He.
  rewrite (collectRows_passes _ [] Hblank (fun n v f _ Hf => False_ind _ Hf) Hdup).
  reflexivity.
Qed.

(** X16. [collectFieldData] returns data exactly for the forms that meet its
    three conditions, and the data is then the sanitized, trimmed email name
    with one field per row, in order, of sanitized, trimmed name and value.
    Any other form gets an error message and [null]. *)
Theorem collectFieldData_accepts_exactly (form : Widget.Form) (data : Widget.FormData) :
  (collectFieldData' form = inr data <->
   formPasses toLowerCase trim form
   /\ data = {| Widget.emailName := Widget.sanitizeInput (trim (Widget.emailNameInput form));
                Widget.fields := map (fieldOfRow trim) (Widget.fieldRows form) |})
  /\ (~ formPasses toLowerCase trim form -> exists text, collectFieldData' form = inl text).
Proof.
  split.
  - split.
    + apply collectFieldData_passed.
    + intros [Hpasses Hdata]. subst data. apply collectFieldData_passes. exact Hpasses.
  - intros Hfails.
    destruct (collectFieldData' form) as [text|accepted] eqn:Hrun.
    + exists text. reflexivity.
    + exfalso. apply Hfails. apply (collectFieldData_passed _ _ Hrun).
Qed.

Lemma pairwise_distinct_NoDup {A B} (g : A -> B) (l : list A) :
  (forall before x between y after,
     l = (before ++ x :: between ++ y :: after)%list -> g x <> g y) ->
  NoDup (map g l).
Proof.
  induction l as [|x l IH]; intros H; simpl; constructor.
  - intros Hin. apply in_map_iff in Hin. destruct Hin as (y & Hy & Hin).
    destruct (in_split _ _ Hin) as (between & after & Hsplit).
    apply (H [] x between y after); [rewrite Hsplit; reflexivity|symmetry; exact Hy].
  - apply IH. intros before a between b after Hsplit.
    apply (H (x :: before) a between b after). rewrite Hsplit. reflexivity.
Qed.

(** X17. What [collectFieldData] returns never has an empty email name, an
    empty field name or an empty field value; and when the names typed have
    none of the characters [sanitizeInput] rewrites, the names returned are
    pairwise different ignoring case. *)
Theorem collected_data_is_well_formed (form : Widget.Form) (data : Widget.FormData) :
  collectFieldData' form = inr data ->
  Widget.emailName data <> ""
  /\ Forall (fun f => Widget.name f <> "" /\ Widget.value f <> "") (Widget.fields data)
  /\ ((forall n v, In (n, v) (Widget.fieldRows form) -> clean (trim n) = true) ->
      NoDup (map (fun f => toLowerCase (Widget.name f)) (Widget.fields data))).
Proof.
  intros Hrun. apply collectFieldData_passed in Hrun.
  destruct Hrun as [(He & Hblank & Hdup) Hdata]. subst data. simpl.
  split; [apply sanitizeInput_nonempty; exact He|]. split.
  - apply Forall_forall. intros f Hf. apply in_map_iff in Hf.
    destruct Hf as ([n v] & Hf & Hin). subst f. simpl.
    destruct (Hblank n v Hin) as [Hn Hv].
    split; apply sanitizeInput_nonempty; assumption.
  - intros Hclean. rewrite map_map.
    apply pairwise_distinct_NoDup.
    intros before [n1 v1] between [n2 v2] after Hsplit. simpl.
    assert (Hin2 : In (n2, v2) (Widget.fieldRows form)).
    { rewrite Hsplit. apply in_or_app. right. right. apply in_or_app. right. left.
      reflexivity. }
    rewrite (sanitizeInput_plain (trim n2))
      by (apply clean_chars; apply (Hclean n2 v2 Hin2)).
    apply (Hdup before n1 v1 between n2 v2 after Hsplit).
Qed.

(** X18. One click on Save sends at most one call to the backend, and the
    success message is shown only when the form passed the checks, the
    call was the one for the collected data, and the backend answered it
    with an ok status and a JSON body whose [success] is truthy. *)
Theorem success_shown_only_on_confirmed_save (form : Widget.Form) :
  (List.length (Widget.backendCalls (saveToDataExtension' form)) <= 1)%nat
  /\ forall text,
       Widget.shown (saveToDataExtension' form) = Widget.SuccessMessage text ->
       exists data response result,
         collectFieldData' form = inr data
         /\ Widget.backendCalls (saveToDataExtension' form) = [Widget.backendRequest data]
         /\ backend (Widget.backendRequest data) = Responded response
         /\ ok response = true
         /\ json response = Some result
         /\ Js.truthy (propOf result "success") = true
         /\ text = "Successfully saved "
                     ++ Js.string_of_nat (List.length (Widget.fields data))
                     ++ " field(s) to Data Extension!".
Proof.
  unfold Widget.saveToDataExtension.
  destruct (collectFieldData' form) as [msg|data]; [split; [simpl; lia|discriminate]|].
  unfold Widget.callBackendAPI.
  destruct (backend (Widget.backendRequest data)) as [e|response] eqn:Hnet;
    [split; [simpl; lia|discriminate]|].
  destruct (json response) as [result|] eqn:Hjson; [|split; [simpl; lia|discriminate]].
  destruct (ok response) eqn:Hok; simpl negb; cbv iota.
  - destruct (Js.getProp result "success") as [success|e] eqn:Hs;
      [|split; [simpl; lia|discriminate]].
    destruct (Js.truthy success) eqn:Ht; [|split; [simpl; lia|discriminate]].
    split; [simpl; lia|]. simpl. intros text H. inversion H.
    exists data, response, result. repeat split; try assumption.
    unfold propOf. rewrite Hs. exact Ht.
  - destruct (Js.getProp result "error"); split; simpl; try lia; discriminate.
Qed.

End WidgetMore.

(** X19. What the widget sends is never turned down by the relay's own
    checks: for data [collectFieldData] returned, a configured relay answers
    the widget's call 200 or 500, never 400 or 405, and builds one row per
    field of the form. *)
Theorem widget_call_passes_relay_checks
    (toLowerCase trim : string -> string) (StringToNumber : string -> JsNum)
    (env : ProcessEnv) (clock : nat -> Z) (network : nat -> HttpRequest -> FetchOutcome)
    (form : Widget.Form) (data : Widget.FormData) (w : World) :
  Widget.collectFieldData toLowerCase trim form = inr data ->
  configMissing env = false ->
  let req := inbound (Widget.backendRequest data) in
  (statusCode (fst (handler StringToNumber env clock network req w)) = 200
   \/ statusCode (fst (handler StringToNumber env clock network req w)) = 500)
  /\ exists rows w1,
       fieldsToRows clock (VStr (Widget.emailName data))
         (map Widget.fieldJson (Widget.fields data)) w = (Returned rows, w1)
       /\ List.length rows = List.length (Widget.fieldRows form).
Proof.
  intros Hrun Hcfg req.
  apply collectFieldData_passed in Hrun. destruct Hrun as [(He & _ & _) Hdata].
  assert (Hname : Widget.emailName data <> "")
    by (subst data; simpl; apply sanitizeInput_nonempty; exact He).
  pose proof (widget_request_accepted data Hname) as Hacc.
  split.
  - unfold req, inbound.
    rewrite (handler_accepted StringToNumber env clock network
               {| req_method := http_method (Widget.backendRequest data);
                  req_body := http_body (Widget.backendRequest data) |}
               w _ _ eq_refl Hcfg Hacc).
    cbv zeta.
    destruct (getSFMCToken _ _ _ _ _) as [[tok|e] w2]; [|right; reflexivity].
    destruct (insertDataExtensionRows _ _ _ _ _) as [[res|e] w3];
      [left|right]; reflexivity.
  - destruct Hacc as (_ & _ & _ & Hall).
    eexists. eexists. split; [apply (fieldsToRows_returns clock _ _ _ Hall)|].
    rewrite stampedRows_length. rewrite Hdata. simpl. rewrite !length_map. reflexivity.
Qed.

(* ------------------------------------------------------------------ *)
(** ** The rows of the form *)

Module FormRowsFacts.

Import FormRows.

Lemma updateRemoveButtons_count c :
  getFieldCount (updateRemoveButtons c) = getFieldCount c.
Proof. unfold getFieldCount, updateRemoveButtons. simpl. apply length_map. Qed.

Lemma updateRemoveButtons_ids c :
  map rowId (fieldRows (updateRemoveButtons c)) = map rowId (fieldRows c).
Proof. unfold updateRemoveButtons. simpl. rewrite map_map. reflexivity. Qed.

Lemma updateRemoveButtons_created c :
  map createdWith (fieldRows (updateRemoveButtons c)) = map createdWith (fieldRows c).
Proof. unfold updateRemoveButtons. simpl. rewrite map_map. reflexivity. Qed.

Lemma updateRemoveButtons_flags c :
  Forall (fun row => removeDisabled row = Nat.leb (getFieldCount c) MIN_FIELDS)
    (fieldRows (updateRemoveButtons c)).
Proof.
  unfold updateRemoveButtons. simpl. apply Forall_forall. intros row Hin.
  apply in_map_iff in Hin. destruct Hin as (r & Hr & _). subst row. reflexivity.
Qed.

Lemma addFieldRow_full name value c :
  (MAX_FIELDS <= getFieldCount c)%nat ->
  addFieldRow name value c =
    {| fieldRows := fieldRows c; fieldCounter := fieldCounter c;
       errorShown := Some "Maximum 20 fields allowed." |}.
Proof.
  intros H. unfold addFieldRow. apply Nat.leb_le in H. rewrite H. reflexivity.
Qed.

Lemma addFieldRow_room name value c :
  (getFieldCount c < MAX_FIELDS)%nat ->
  addFieldRow name value c =
    updateRemoveButtons
      {| fieldRows :=
           (fieldRows c ++
              [{| rowId := fieldCounter c;
                  createdWith := (orEmpty name, orEmpty value);
                  removeDisabled := Nat.eqb (getFieldCount c) 0 |}])%list;
         fieldCounter := S (fieldCounter c);
         errorShown := errorShown c |}.
Proof.
  intros H. unfold addFieldRow. apply Nat.leb_gt in H. rewrite H. reflexivity.
Qed.

(** X21. [addFieldRow] never takes the form beyond [MAX_FIELDS] rows: with
    room left it appends exactly one row, created with the name and value
    given (the empty string for [undefined]) and leaves the message alone;
    at the maximum it changes no row and shows "Maximum 20 fields
    allowed.". *)
Theorem addFieldRow_respects_the_maximum (name value : JsVal) (c : Container) :
  ((getFieldCount c < MAX_FIELDS)%nat ->
   map createdWith (fieldRows (addFieldRow name value c))
     = (map createdWith (fieldRows c) ++ [(orEmpty name, orEmpty value)])%list
   /\ errorShown (addFieldRow name value c) = errorShown c)
  /\ ((MAX_FIELDS <= getFieldCount c)%nat ->
      fieldRows (addFieldRow name value c) = fieldRows c
      /\ errorShown (addFieldRow name value c) = Some "Maximum 20 fields allowed.")
  /\ ((getFieldCount c <= MAX_FIELDS)%nat ->
      (getFieldCount (addFieldRow name value c) <= MAX_FIELDS)%nat).
Proof.
  split; [|split].
  - intros H. rewrite (addFieldRow_room _ _ _ H). split; [|reflexivity].
    rewrite updateRemoveButtons_created. simpl. rewrite map_app. reflexivity.
  - intros H. rewrite (addFieldRow_full _ _ _ H). split; reflexivity.
  - intros H. destruct (Nat.le_gt_cases MAX_FIELDS (getFieldCount c)) as [Hfull|Hroom].
    + rewrite (addFieldRow_full _ _ _ Hfull). exact H.
    + rewrite (addFieldRow_room _ _ _ Hroom). rewrite updateRemoveButtons_count.
      unfold getFieldCount in *. simpl. rewrite length_app. simpl. lia.
Qed.

Lemma removeFirst_length id rows :
  existsb (fun row => Nat.eqb (rowId row) id) rows = true ->
  S (List.length (removeFirst id rows)) = List.length rows.
Proof.
  induction rows as [|row rest IH]; simpl; [discriminate|].
  destruct (Nat.eqb (rowId row) id); simpl; [reflexivity|].
  intros H. rewrite (IH H). reflexivity.
Qed.

(** X22. [removeFieldRow] never takes the form below [MIN_FIELDS] rows: with
    one row left, or an id no row has, it changes nothing; otherwise it
    removes exactly one row, and afterwards every remove button is disabled
    exactly when a single row is left. *)
Theorem removeFieldRow_respects_the_minimum (id : nat) (c : Container) :
  ((getFieldCount c <= MIN_FIELDS)%nat -> removeFieldRow id c = c)
  /\ (~ In id (map rowId (fieldRows c)) -> removeFieldRow id c = c)
  /\ ((MIN_FIELDS < getFieldCount c)%nat ->
      In id (map rowId (fieldRows c)) ->
      S (getFieldCount (removeFieldRow id c)) = getFieldCount c
      /\ Forall (fun row => removeDisabled row
                            = Nat.eqb (getFieldCount (removeFieldRow id c)) 1)
           (fieldRows (removeFieldRow id c)))
  /\ ((MIN_FIELDS <= getFieldCount c)%nat ->
      (MIN_FIELDS <= getFieldCount (removeFieldRow id c))%nat).
Proof.
  assert (Hfound : In id (map rowId (fieldRows c)) <->
                   existsb (fun row => Nat.eqb (rowId row) id) (fieldRows c) = true).
  { rewrite existsb_exists, in_map_iff. split.
    - intros (row & Hid & Hin). exists row. split; [exact Hin|].
      apply Nat.eqb_eq. exact Hid.
    - intros (row & Hin & Hid). exists row. split; [apply Nat.eqb_eq; exact Hid|exact Hin]. }
  assert (Hremoves : (MIN_FIELDS < getFieldCount c)%nat ->
                     In id (map rowId (fieldRows c)) ->
                     removeFieldRow id c =
                       updateRemoveButtons
                         {| fieldRows := removeFirst id (fieldRows c);
                            fieldCounter := fieldCounter c;
                            errorShown := errorShown c |}
                     /\ S (List.length (removeFirst id (fieldRows c))) = getFieldCount c).
  { intros Hmin Hin. apply Hfound in Hin. unfold removeFieldRow. rewrite Hin.
    apply Nat.ltb_lt in Hmin. rewrite Hmin. split; [reflexivity|].
    apply removeFirst_length. exact Hin. }
  split; [|split; [|split]].
  - intros H. unfold removeFieldRow.
    assert (Hlt : Nat.ltb MIN_FIELDS (getFieldCount c) = false) by (apply Nat.ltb_ge; exact H).
    rewrite Hlt, andb_false_r. reflexivity.
  - intros H. unfold removeFieldRow.
    destruct (existsb _ (fieldRows c)) eqn:He; [|reflexivity].
    exfalso. apply H. apply Hfound. reflexivity.
  - intros Hmin Hin. destruct (Hremoves Hmin Hin) as [Hrun Hlen]. rewrite Hrun.
    rewrite updateRemoveButtons_count. unfold getFieldCount at 1 3. simpl.
    split; [exact Hlen|].
    eapply Forall_impl; [|apply updateRemoveButtons_flags].
    intros row Hrow. rewrite Hrow. unfold getFieldCount. simpl. unfold MIN_FIELDS.
    unfold getFieldCount, MIN_FIELDS in Hmin. unfold getFieldCount in Hlen.
    destruct (List.length (removeFirst id (fieldRows c))) as [|[|k]]; simpl;
      [lia|reflexivity|reflexivity].
  - intros Hmin.
    destruct (Nat.le_gt_cases (getFieldCount c) MIN_FIELDS) as [Hle|Hgt].
    + unfold removeFieldRow.
      assert (Hlt : Nat.ltb MIN_FIELDS (getFieldCount c) = false)
        by (apply Nat.ltb_ge; exact Hle).
      rewrite Hlt, andb_false_r. exact Hmin.
    + destruct (existsb (fun row => Nat.eqb (rowId row) id) (fieldRows c)) eqn:He.
      * destruct (Hremoves Hgt (proj2 Hfound eq_refl)) as [Hrun Hlen]. rewrite Hrun.
        rewrite updateRemoveButtons_count. unfold getFieldCount at 1. simpl. lia.
      * unfold removeFieldRow. rewrite He. exact Hmin.
Qed.

Lemma removeFirst_ids id rows :
  NoDup (map rowId rows) ->
  map rowId (removeFirst id rows) = filter (fun i => negb (Nat.eqb i id)) (map rowId rows).
Proof.
  induction rows as [|row rest IH]; simpl; [reflexivity|].
  intros Hnd. inversion Hnd as [|x l Hnotin Hrest]; subst.
  destruct (Nat.eqb (rowId row) id) eqn:Hid; simpl.
  - apply Nat.eqb_eq in Hid. subst id.
    symmetry. apply forallb_filter_id. apply forallb_forall.
    intros i Hi. apply negb_true_iff. apply Nat.eqb_neq. intros Heq. subst i.
    contradiction.
  - rewrite (IH Hrest). reflexivity.
Qed.

(** X23. Row ids stay pairwise different and below the counter through
    [addFieldRow] and [removeFieldRow]; so a removal that goes through
    removes the row with the id given and no other, and keeps the others in
    their order. *)
Theorem row_ids_stay_unique (name value : JsVal) (id : nat) (c : Container) :
  wellNumbered c ->
  wellNumbered (addFieldRow name value c)
  /\ wellNumbered (removeFieldRow id c)
  /\ ((MIN_FIELDS < getFieldCount c)%nat ->
      map rowId (fieldRows (removeFieldRow id c))
        = filter (fun i => negb (Nat.eqb i id)) (map rowId (fieldRows c))).
Proof.
  intros [Hnd Hlt]. split; [|split].
  - unfold wellNumbered.
    destruct (Nat.le_gt_cases MAX_FIELDS (getFieldCount c)) as [Hfull|Hroom].
    + rewrite (addFieldRow_full _ _ _ Hfull). simpl. split; assumption.
    + rewrite (addFieldRow_room _ _ _ Hroom). rewrite updateRemoveButtons_ids.
      unfold updateRemoveButtons. simpl. split.
      * rewrite map_app. simpl. apply NoDup_app; [exact Hnd|repeat constructor; intros []|].
        intros i Hi [Heq|[]]. subst i. apply in_map_iff in Hi.
        destruct Hi as (row & Hid & Hin).
        rewrite Forall_forall in Hlt. specialize (Hlt row Hin). lia.
      * apply Forall_forall. intros row Hin. apply in_map_iff in Hin.
        destruct Hin as (r & Hr & Hin). subst row. simpl.
        apply in_app_or in Hin. destruct Hin as [Hin|[Hin|[]]].
        -- rewrite Forall_forall in Hlt. specialize (Hlt r Hin). lia.
        -- subst r. simpl. lia.
  - unfold wellNumbered, removeFieldRow.
    destruct (existsb _ (fieldRows c) && Nat.ltb MIN_FIELDS (getFieldCount c))%bool;
      [|split; assumption].
    rewrite updateRemoveButtons_ids. unfold updateRemoveButtons. simpl.
    rewrite (removeFirst_ids _ _ Hnd). split.
    + apply NoDup_filter. exact Hnd.
    + apply Forall_forall. intros row Hin. apply in_map_iff in Hin.
      destruct Hin as (r & Hr & Hin). subst row. simpl.
      assert (Hsub : forall rows, In r (removeFirst id rows) -> In r rows).
      { induction rows as [|x rows IH]; simpl; [auto|].
        destruct (Nat.eqb (rowId x) id); [auto|]. intros [H|H]; [left; exact H|right; auto]. }
      rewrite Forall_forall in Hlt. apply Hlt. apply Hsub. exact Hin.
  - intros Hmin. unfold removeFieldRow.
    destruct (existsb (fun row => Nat.eqb (rowId row) id) (fieldRows c)) eqn:He.
    + apply Nat.ltb_lt in Hmin. rewrite Hmin. simpl andb. cbv iota.
      rewrite updateRemoveButtons_ids. simpl. apply removeFirst_ids. exact Hnd.
    + simpl andb. cbv iota. symmetry. apply forallb_filter_id. apply forallb_forall.
      intros i Hi. apply negb_true_iff. apply Nat.eqb_neq. intros Heq. subst i.
      apply in_map_iff in Hi. destruct Hi as (row & Hid & Hin).
      assert (existsb (fun row => Nat.eqb (rowId row) id) (fieldRows c) = true).
      { apply existsb_exists. exists row. split; [exact Hin|apply Nat.eqb_eq; exact Hid]. }
      congruence.
Qed.

End FormRowsFacts.

(* ------------------------------------------------------------------ *)
(** ** Loading the form, and the block that writes by itself *)

Module LoadingFacts.

Import FormRows.

#[local] Arguments MAX_FIELDS : simpl never.

Lemma firstn_app_firstn {A} (n : nat) :
  forall l1 l2 : list A, firstn n (firstn n l1 ++ l2) = firstn n (l1 ++ l2).
Proof.
  induction n as [|n IH]; intros l1 l2; [reflexivity|].
  destruct l1 as [|x l1]; simpl; [reflexivity|]. now rewrite IH.
Qed.

Lemma addFieldRow_created name value c :
  (getFieldCount c <= MAX_FIELDS)%nat ->
  map createdWith (fieldRows (addFieldRow name value c))
    = firstn MAX_FIELDS (map createdWith (fieldRows c) ++ [(orEmpty name, orEmpty value)])
  /\ (getFieldCount (addFieldRow name value c) <= MAX_FIELDS)%nat.
Proof.
  intros Hle.
  destruct (Nat.le_gt_cases MAX_FIELDS (getFieldCount c)) as [H|H].
  - rewrite (FormRowsFacts.addFieldRow_full _ _ _ H). simpl fieldRows. split; [|exact Hle].
    assert (Hlen : List.length (map createdWith (fieldRows c)) = MAX_FIELDS).
    { rewrite length_map. unfold getFieldCount in *. lia. }
    rewrite firstn_app, Hlen, Nat.sub_diag. rewrite firstn_O, app_nil_r.
    symmetry. apply firstn_all2. rewrite Hlen. apply Nat.le_refl.
  - rewrite (FormRowsFacts.addFieldRow_room _ _ _ H).
    rewrite FormRowsFacts.updateRemoveButtons_created,
            FormRowsFacts.updateRemoveButtons_count.
    unfold getFieldCount in *. simpl fieldRows. rewrite map_app. simpl map. split.
    + symmetry. apply firstn_all2. rewrite length_app, length_map. simpl. lia.
    + rewrite length_app. simpl. lia.
Qed.

Lemma addSavedFields_created items :
  forall c,
    forallb (fun f => negb (isNullish f)) items = true ->
    (getFieldCount c <= MAX_FIELDS)%nat ->
    map createdWith (fieldRows (addSavedFields items c))
      = firstn MAX_FIELDS (map createdWith (fieldRows c) ++ map savedArgs items)
    /\ (getFieldCount (addSavedFields items c) <= MAX_FIELDS)%nat.
Proof.
  induction items as [|f rest IH]; intros c Hall Hle; cbn [addSavedFields map].
  - split; [|exact Hle]. rewrite app_nil_r. symmetry. apply firstn_all2.
    rewrite length_map. exact Hle.
  - simpl in Hall. apply andb_true_iff in Hall. destruct Hall as [Hf Hrest].
    apply negb_true_iff in Hf. rewrite !(getProp_not_nullish _ _ Hf).
    destruct (addFieldRow_created (propOf f "name") (propOf f "value") c Hle)
      as [Hcreated Hle'].
    destruct (IH _ Hrest Hle') as [Hrows Hcount]. split; [|exact Hcount].
    rewrite Hrows, Hcreated, firstn_app_firstn, <- app_assoc. reflexivity.
Qed.

Lemma addDefaults_created defaults :
  forall c,
    (getFieldCount c <= MAX_FIELDS)%nat ->
    map createdWith
      (fieldRows
         (fold_left (fun acc field => addFieldRow (VStr (fst field)) (VStr (snd field)) acc)
            defaults c))
      = firstn MAX_FIELDS (map createdWith (fieldRows c) ++ map defaultArgs defaults).
Proof.
  induction defaults as [|d rest IH]; intros c Hle; cbn [fold_left map].
  - rewrite app_nil_r. symmetry. apply firstn_all2. rewrite length_map. exact Hle.
  - destruct (addFieldRow_created (VStr (fst d)) (VStr (snd d)) c Hle) as [Hcreated Hle'].
    rewrite (IH _ Hle'), Hcreated, firstn_app_firstn, <- app_assoc. reflexivity.
Qed.

(** X24. [init] renders the default fields after whatever [loadSavedData]
    put in the form: with saved fields that can all be read, the rows are
    those of the saved fields followed by those of the five default fields,
    cut at [MAX_FIELDS]; the [return] in [loadSavedData] does not skip the
    defaults.  Without saved data an empty form gets the five defaults. *)
Theorem init_renders_defaults_after_saved_fields
    (StringToNumber : string -> JsNum) (savedData : JsVal) (items : list JsVal)
    (c : Container) :
  isNullish savedData = false ->
  Js.getProp savedData "fields" = Returned (VArr items) ->
  items <> [] ->
  forallb (fun f => negb (isNullish f)) items = true ->
  map createdWith (fieldRows (init StringToNumber (Parsed savedData) c))
    = firstn MAX_FIELDS (map savedArgs items ++ map defaultArgs DEFAULT_FIELDS)
  /\ map createdWith (fieldRows (init StringToNumber NoItem emptyContainer))
     = map defaultArgs DEFAULT_FIELDS.
Proof.
  intros Hnull Hfields Hitems Hall. split; [|reflexivity].
  unfold init, loadSavedData.
  rewrite (getProp_not_nullish _ "emailName" Hnull), Hfields.
  assert (Hpos : (Js.truthy (VArr items)
                  && Js.num_lt (Num 0) (toNumber StringToNumber (lengthOf (VArr items))))%bool
                 = true).
  { simpl. apply Z.ltb_lt. destruct items; [contradiction|]. simpl List.length. lia. }
  rewrite Hpos.
  set (cleared := {| fieldRows := []; fieldCounter := O; errorShown := errorShown c |}).
  assert (Hzero : (getFieldCount cleared <= MAX_FIELDS)%nat)
    by (unfold getFieldCount, MAX_FIELDS; simpl; lia).
  destruct (addSavedFields_created items cleared Hall Hzero) as [Hsaved Hle].
  unfold renderDefaultFields.
  rewrite (addDefaults_created _ _ Hle), Hsaved.
  change (map createdWith (fieldRows cleared)) with (@nil (JsVal * JsVal)).
  cbn [app]. apply firstn_app_firstn.
Qed.

End LoadingFacts.

Module DirectBlockFacts.

Import DirectBlock.






End DirectBlockFacts.

(* ------------------------------------------------------------------ *)
(** ** Failures that stop a save *)



(* ------------------------------------------------------------------ *)
(** ** The further statements on concrete runs *)

Module MoreRuns.

Import Samples.

(** X1: a GET, with the client secret unset and a warm cache. *)
Lemma other_methods_witness :
  handler digitsToNumber noSecret tickingClock workingUpstream getRequest warmWorld
  = (reply 405 (ErrorBody "Method not allowed"), warmWorld).
Proof.
  apply (other_methods_answered_untouched digitsToNumber noSecret tickingClock
           workingUpstream getRequest warmWorld).
  discriminate.
Defined.

(** X3: the two-field save that succeeds. *)
Lemma success_only_after_acknowledged_insert_witness :
  exists authToken rows earlier response,
    net_log (snd (save workingUpstream welcome initialWorld))
      = (earlier ++ [rowsetRequest deployed authToken rows])%list
    /\ workingUpstream (List.length earlier) (rowsetRequest deployed authToken rows)
       = Responded response
    /\ ok response = true
    /\ json response = Some (VArr [])
    /\ 2%nat = List.length rows
    /\ statusCode (fst (save workingUpstream welcome initialWorld)) = 200.
Proof.
  apply (success_only_after_acknowledged_insert digitsToNumber deployed tickingClock
           workingUpstream welcome initialWorld 2
           "Successfully saved 2 row(s) to Data Extension" (VArr [])).
  reflexivity.
Defined.

(** X4: a cold cache and a platform that answers a number of seconds. *)
Lemma token_cache_written_witness :
  token (tokenCache (snd (getToken workingUpstream initialWorld)))
  = VStr "token-1".
Proof.
  assert (H := token_cache_written_all_or_nothing digitsToNumber deployed tickingClock
                 workingUpstream initialWorld).
  apply H. intros r data Hnet Hjson.
  vm_compute in Hnet. inversion Hnet. subst r.
  vm_compute in Hjson. inversion Hjson. reflexivity.
Defined.

(** X5: a POST nothing parsed. *)
Lemma unparsed_body_witness :
  save workingUpstream unparsedPost initialWorld
  = (reply 500 (FailureBody (TypeErr VUndefined "emailName")), initialWorld).
Proof.
  apply (unparsed_body_is_a_500 digitsToNumber deployed tickingClock workingUpstream
           unparsedPost initialWorld); reflexivity.
Defined.

(** X6: a [null] after one good field. *)
Lemma null_field_witness :
  exists w',
    save workingUpstream welcomeNullField initialWorld
      = (reply 500 (FailureBody (TypeErr VNull "name")), w')
    /\ net_log w' = []
    /\ tokenCache w' = emptyCache
    /\ ticks w' = 1%nat.
Proof.
  apply (null_field_is_a_500_before_any_call digitsToNumber deployed tickingClock
           workingUpstream welcomeNullField initialWorld (VStr "Welcome Email")
           [field "subject" "Hi"] VNull []); reflexivity.
Defined.

(** X7: two fields, two rows, in order. *)
Lemma rows_follow_fields_witness :
  exists rows w1,
    fieldsToRows tickingClock (VStr "Welcome Email") welcomeFields initialWorld
      = (Returned rows, w1)
    /\ map (fun row => (email_name row, fieldname row, field_value row)) rows
       = [(VStr "Welcome Email", VStr "subject", VStr "Hi");
          (VStr "Welcome Email", VStr "preheader", VStr "Hello")].
Proof.
  apply (rows_follow_fields_in_order tickingClock (VStr "Welcome Email") welcomeFields
           initialWorld).
  reflexivity.
Defined.

(** X8: a rowset endpoint that answers 500. *)
Lemma insert_refusal_witness :
  exists w',
    save insert500 welcome initialWorld
    = (reply 500 (FailureBody (Err "DE Insert failed: 500 - upstream failure")), w').
Proof.
  eexists.
  eapply (insert_refusal_reported digitsToNumber deployed tickingClock insert500
            welcome initialWorld (VStr "Welcome Email") welcomeFields _ _ _ _
            upstreamFailure).
  - reflexivity.
  - reflexivity.
  - repeat split; reflexivity.
  - reflexivity.
  - reflexivity.
  - reflexivity.
  - reflexivity.
Defined.

(** X9: a rowset endpoint that answers 200 "OK". *)
Lemma unreadable_acknowledgement_witness :
  exists w',
    save insertUnreadable welcome initialWorld = (reply 500 (FailureBody SyntaxErr), w')
    /\ List.length (net_log w') = 2%nat.
Proof.
  eexists. split.
  - eapply (acknowledged_insert_with_unreadable_body_is_a_500 digitsToNumber deployed
              tickingClock insertUnreadable welcome initialWorld (VStr "Welcome Email")
              welcomeFields _ _ _ _ acknowledgedUnreadable).
    + reflexivity.
    + reflexivity.
    + repeat split; reflexivity.
    + reflexivity.
    + reflexivity.
    + reflexivity.
    + reflexivity.
    + reflexivity.
  - reflexivity.
Defined.

(** X10: 3600 seconds reported at 10:30:00.000. *)
Lemma token_reused_until_margin_witness :
  exists w' now,
    getToken workingUpstream initialWorld = (Returned (VStr "token-1"), w')
    /\ ticks w' = S now
    /\ forall later,
         tokenCache later = tokenCache w' ->
         cachedTokenUsable tickingClock later =
           (true && (tickingClock (ticks later) <? tickingClock now + (3600 - 60) * 1000))%bool.
Proof.
  apply (token_reused_exactly_until_margin digitsToNumber deployed tickingClock
           workingUpstream initialWorld tokenReply tokenData 3600); reflexivity.
Defined.


(** X12: a client secret set to the empty string. *)
Lemma configuration_missing_witness : configMissing emptySecret = true.
Proof.
  apply (proj2 (configuration_missing_iff_unset_or_empty emptySecret)).
  right. left. right. reflexivity.
Defined.

(** X13: the rowset call of the two-field save. *)
Lemma rowset_call_witness :
  http_headers
    (rowsetRequest deployed (VStr "token-1")
       (stampedRows tickingClock (VStr "Welcome Email") welcomeFields 0))
  = [("Content-Type", "application/json"); ("Authorization", "Bearer token-1")].
Proof.
  apply (rowset_call_carries_cached_token digitsToNumber deployed tickingClock
           workingUpstream welcome initialWorld).
  - right. left. reflexivity.
  - reflexivity.
Defined.


(** X15: a clean string is a fixed point. *)
Lemma sanitizeInput_fixed_point_witness : Widget.sanitizeInput "subject" = "subject".
Proof.
  apply (proj2 (proj1 (proj2 (sanitizeInput_fixed_points_and_idempotence "subject")))).
  reflexivity.
Defined.

(** X16: a form that passes. *)
Lemma collectFieldData_accepts_witness :
  formPasses asciiLower asciiTrim welcomeForm.
Proof.
  apply (proj1 (proj1 (collectFieldData_accepts_exactly asciiLower asciiTrim welcomeForm
                         welcomeData))).
  reflexivity.
Defined.

(** X17: what that form gives. *)
Lemma collected_data_witness :
  Widget.emailName welcomeData <> ""
  /\ Forall (fun f => Widget.name f <> "" /\ Widget.value f <> "") (Widget.fields welcomeData)
  /\ NoDup (map (fun f => asciiLower (Widget.name f)) (Widget.fields welcomeData)).
Proof.
  destruct (collected_data_is_well_formed asciiLower asciiTrim welcomeForm welcomeData
              eq_refl) as (Hname & Hfields & Hnames).
  split; [exact Hname|]. split; [exact Hfields|].
  apply Hnames. intros n v [H|[H|[]]]; inversion H; reflexivity.
Defined.

(** X18: a backend that confirms. *)
Lemma success_shown_witness :
  exists data response result,
    Widget.collectFieldData asciiLower asciiTrim welcomeForm = inr data
    /\ Widget.backendCalls
         (Widget.saveToDataExtension asciiLower asciiTrim savingBackend welcomeForm)
       = [Widget.backendRequest data]
    /\ savingBackend (Widget.backendRequest data) = Responded response
    /\ ok response = true
    /\ json response = Some result
    /\ Js.truthy (propOf result "success") = true
    /\ "Successfully saved 2 field(s) to Data Extension!"
       = "Successfully saved " ++ Js.string_of_nat (List.length (Widget.fields data))
           ++ " field(s) to Data Extension!".
Proof.
  apply (proj2 (success_shown_only_on_confirmed_save asciiLower asciiTrim savingBackend
                  welcomeForm)).
  reflexivity.
Defined.

(** X19: that form against a configured relay with a working upstream. *)
Lemma widget_call_witness :
  statusCode (fst (save workingUpstream (inbound (Widget.backendRequest welcomeData))
                     initialWorld)) = 200
  /\ exists rows w1,
       fieldsToRows tickingClock (VStr "Welcome Email")
         (map Widget.fieldJson (Widget.fields welcomeData)) initialWorld
       = (Returned rows, w1)
       /\ List.length rows = 2%nat.
Proof.
  destruct (widget_call_passes_relay_checks asciiLower asciiTrim digitsToNumber deployed
              tickingClock workingUpstream welcomeForm welcomeData initialWorld
              eq_refl eq_refl) as [_ Hrows].
  split; [reflexivity|exact Hrows].
Defined.


(** X21: a twenty-first row. *)
Lemma addFieldRow_witness :
  FormRows.fieldRows (FormRows.addFieldRow (VStr "extra") (VStr "") twentyRows)
    = FormRows.fieldRows twentyRows
  /\ FormRows.errorShown (FormRows.addFieldRow (VStr "extra") (VStr "") twentyRows)
     = Some "Maximum 20 fields allowed.".
Proof.
  apply (proj1 (proj2 (FormRowsFacts.addFieldRow_respects_the_maximum
                         (VStr "extra") (VStr "") twentyRows))).
  vm_compute. lia.
Defined.

(** X22: the last row cannot be removed; one of three can. *)
Lemma removeFieldRow_witness :
  FormRows.removeFieldRow 0 oneRow = oneRow
  /\ S (FormRows.getFieldCount (FormRows.removeFieldRow 1 threeRows))
     = FormRows.getFieldCount threeRows.
Proof.
  destruct (FormRowsFacts.removeFieldRow_respects_the_minimum 0 oneRow) as (Hlast & _).
  destruct (FormRowsFacts.removeFieldRow_respects_the_minimum 1 threeRows)
    as (_ & _ & Hremove & _).
  split.
  - apply Hlast. vm_compute. lia.
  - apply Hremove.
    + vm_compute. lia.
    + right. left. reflexivity.
Defined.

(** X23: removing the middle one of three rows. *)
Lemma row_ids_witness :
  map FormRows.rowId (FormRows.fieldRows (FormRows.removeFieldRow 1 threeRows)) = [0; 2]%nat.
Proof.
  assert (Hwell : wellNumbered threeRows).
  { split.
    - repeat constructor; simpl; intuition discriminate.
    - repeat constructor. }
  destruct (FormRowsFacts.row_ids_stay_unique (VStr "d") (VStr "") 1 threeRows Hwell)
    as (_ & _ & Hremoved).
  rewrite Hremoved; [reflexivity|].
  vm_compute. lia.
Defined.

(** X24: two saved fields: seven rows, the five defaults last. *)
Lemma init_witness :
  map FormRows.createdWith
    (FormRows.fieldRows
       (FormRows.init digitsToNumber (FormRows.Parsed savedTwoFields)
          FormRows.emptyContainer))
  = [(VStr "subject", VStr "Hi"); (VStr "cta", VStr "Go");
     (VStr "subject", VStr ""); (VStr "preheader", VStr ""); (VStr "header", VStr "");
     (VStr "body", VStr ""); (VStr "footer", VStr "")].
Proof.
  apply (proj1 (LoadingFacts.init_renders_defaults_after_saved_fields digitsToNumber
                  savedTwoFields [field "subject" "Hi"; field "cta" "Go"]
                  FormRows.emptyContainer eq_refl eq_refl
                  (fun H => match H with end) eq_refl)).
Defined.



End MoreRuns.
